(** * Span, Position, Issue and IssueKind of the template language service

    A shallow embedding of the classes [Span], [Position] and [Issue] and of
    the enum [IssueKind] (the second document of
    src/src/acquisition/dotnetAcquisition.ts, lines 107-271) and of the
    functions that associate parameter files with templates
    (src/unnamed/part_000), followed by their properties.

    Offsets, lengths, lines, columns and movements are JavaScript numbers
    that hold integers.  A number is a double: the integers it can hold are
    those with at most 53 significant bits, and [+] and [-] give the double
    nearest to the exact result.  The integers are modelled by [Z] and the
    two operations by [Number_add] and [Number_sub], which round as the code
    does; [Math.min], [Math.max] and the comparisons are exact.  Fractions,
    [NaN] and the infinities (what a result of magnitude 2^1024 or more
    becomes) are not integers and are not modelled. *)

From Stdlib Require Import ZArith String Ascii List Bool Lia.
From Stdlib Require Import DecimalString DecimalZ.
Import ListNotations.

Local Open Scope string_scope.
Local Open Scope Z_scope.

(** ** Numbers *)

(** [Number.MAX_SAFE_INTEGER], 2^53 - 1. *)
Definition MAX_SAFE_INTEGER : Z := 9007199254740991.

(** An integer between [-MAX_SAFE_INTEGER] and [MAX_SAFE_INTEGER]. *)
Definition safe_integer (z : Z) : Prop := Z.abs z <= MAX_SAFE_INTEGER.

(** 2^53: every integer up to it in magnitude is a double. *)
Definition two53 : Z := 9007199254740992.

(** The double nearest to the integer [z], the one with the even significand
    when two are equally near.  Beyond 2^53 the doubles around [z] are the
    multiples of [2 ^ e], where [e] is the number of bits of [z] in excess
    of 53. *)
Definition round (z : Z) : Z :=
  let a := Z.abs z in
  if a <=? two53 then z
  else
    let e := Z.log2 a - 52 in
    let q := a / 2 ^ e in
    let r := a mod 2 ^ e in
    let half := 2 ^ (e - 1) in
    let q :=
      if r <? half then q
      else if half <? r then q + 1
      else if Z.even q then q else q + 1 in
    Z.sgn z * (q * 2 ^ e).

(** [a + b] on numbers: adding zero gives the other operand, otherwise the
    exact sum is rounded. *)
Definition Number_add (a b : Z) : Z :=
  if a =? 0 then b else if b =? 0 then a else round (a + b).

(** [a - b] on numbers. *)
Definition Number_sub (a b : Z) : Z :=
  if b =? 0 then a else round (a - b).

(** ** Exceptions

    Constructors that validate their arguments throw.  A computation that may
    throw returns a [result]; statements are sequenced with [;;]. *)

Inductive exn : Type :=
| AssertionError (message : string)
| Error (message : string).

Inductive result (T : Type) : Type :=
| Ok (value : T)
| Throw (e : exn).

Arguments Ok {T} value.
Arguments Throw {T} e.

Definition bind {A B : Type} (c : result A) (k : A -> result B) : result B :=
  match c with
  | Ok v => k v
  | Throw e => Throw e
  end.

Notation "x <- c ;; k" := (bind c (fun x => k))
  (at level 61, c at next level, right associativity).
Notation "c ;; k" := (bind c (fun _ => k))
  (at level 61, right associativity).

(** [assert(value, message)] of Node's assert module: throws an
    [AssertionError] carrying [message] when [value] is falsy. *)
Definition assert (value : bool) (message : string) : result unit :=
  if value then Ok tt else Throw (AssertionError message).

(** Modelled from the spec: [nonNullValue] is imported from ./util/nonNull,
    which is not among the sources.  The specification names the negative
    line/column, the short span and the empty message as the only ways a
    constructor fails, so on a present value [nonNullValue] returns that
    value; on an absent one ([null] or [undefined]) it throws. *)
Definition nonNullValue {T : Type} (value : option T)
    (propertyNameOrMessage : string) : result T :=
  match value with
  | Some v => Ok v
  | None =>
      Throw (Error propertyNameOrMessage)
  end.

(** ** class Span *)

Module Span.

(** [constructor(private _startIndex: number, private _length: number) {}]:
    the body is empty, the two parameters become the fields. *)
Record t : Type := new { _startIndex : Z; _length : Z }.

Definition startIndex (this : t) : Z := _startIndex this.

Definition length (this : t) : Z := _length this.

Definition endIndex (this : t) : Z :=
  Number_add (_startIndex this)
    (if _length this >? 0 then Number_sub (_length this) 1 else 0).

Definition afterEndIndex (this : t) : Z :=
  Number_add (_startIndex this) (_length this).

Definition contains (this : t) (index : Z) (includeAfterEndIndex : bool)
  : bool :=
  let result := _startIndex this <=? index in
  if result then
    if includeAfterEndIndex then index <=? afterEndIndex this
    else index <=? endIndex this
  else result.

(** The parameter [includeAfterEndIndex] defaults to [false]. *)
Definition contains_default (this : t) (index : Z) : bool :=
  contains this index false.

(** [rhs: Span | undefined]; an object is always truthy, so [!!rhs] holds
    exactly when [rhs] is present. *)
Definition union (this : t) (rhs : option t) : t :=
  match rhs with
  | Some rhs =>
      let minStart := Z.min (startIndex this) (startIndex rhs) in
      let maxAfterEndIndex :=
        Z.max (afterEndIndex this) (afterEndIndex rhs) in
      new minStart (Number_sub maxAfterEndIndex minStart)
  | None => this
  end.

(** [public static union(lhs, rhs)]. *)
Definition static_union (lhs rhs : option t) : option t :=
  match lhs with
  | Some lhs => Some (union lhs rhs)
  | None =>
      match rhs with
      | Some rhs => Some rhs
      | None => None
      end
  end.

Definition translate (this : t) (movement : Z) : t :=
  if movement =? 0 then this
  else new (Number_add (_startIndex this) movement) (_length this).

(** The start index, the length and their exact sum are safe integers. *)
Definition safe (this : t) : Prop :=
  safe_integer (_startIndex this) /\
  safe_integer (_length this) /\
  safe_integer (_startIndex this + _length this).

(** The span lies in a document: its start index and its length are not
    negative and its exact end is a safe integer. *)
Definition in_document (this : t) : Prop :=
  0 <= _startIndex this /\
  0 <= _length this /\
  _startIndex this + _length this <= MAX_SAFE_INTEGER.

End Span.


(** ** class Position *)

Module Position.

Record t : Type := mk { _line : Z; _column : Z }.

Definition new (_line _column : Z) : result t :=
  nonNullValue (Some _line) "_line" ;;
  assert (_line >=? 0) "_line cannot be less than 0" ;;
  nonNullValue (Some _column) "_column" ;;
  assert (_column >=? 0) "_column cannot be less than 0" ;;
  Ok (mk _line _column).

Definition line (this : t) : Z := _line this.

Definition column (this : t) : Z := _column this.

End Position.

(** ** enum IssueKind *)

Inductive IssueKind : Type :=
| tleSyntax
| referenceInVar
| unusedVar
| unusedParam
| unusedUdfParam
| unusedUdf
| badArgsCount
| badFuncContext
| undefinedFunc
| undefinedNs
| undefinedUdf
| undefinedParam
| undefinedVar
| varInUdf
| undefinedVarProp.

(** The enum is a string enum: the value of each member is the string
    written after its [=]. *)
Definition IssueKind_value (kind : IssueKind) : string :=
  match kind with
  | tleSyntax => "tleSyntax"
  | referenceInVar => "referenceInVar"
  | unusedVar => "unusedVar"
  | unusedParam => "unusedParam"
  | unusedUdfParam => "unusedUdfParam"
  | unusedUdf => "unusedUdf"
  | badArgsCount => "badArgsCount"
  | badFuncContext => "badFuncContext"
  | undefinedFunc => "undefinedFunc"
  | undefinedNs => "undefinedNs"
  | undefinedUdf => "undefinedUdf"
  | undefinedParam => "undefinedParam"
  | undefinedVar => "undefinedVar"
  | varInUdf => "varInUdf"
  | undefinedVarProp => "undefinedVarProp"
  end.

(** The members in the order of their declaration. *)
Definition IssueKind_members : list IssueKind :=
  [tleSyntax; referenceInVar; unusedVar; unusedParam; unusedUdfParam;
   unusedUdf; badArgsCount; badFuncContext; undefinedFunc; undefinedNs;
   undefinedUdf; undefinedParam; undefinedVar; varInUdf; undefinedVarProp].

(** ** class Issue *)

Module Issue.

(** [kind] is a public field, [_span] and [_message] are private and read
    through the getters [span] and [message]. *)
Record t : Type := mk { _span : Span.t; _message : string; kind : IssueKind }.

Definition new (_span : Span.t) (_message : string) (kind : IssueKind)
  : result t :=
  nonNullValue (Some _span) "_span" ;;
  assert (1 <=? Span.length _span)
    "_span's length must be greater than or equal to 1." ;;
  nonNullValue (Some _message) "_message" ;;
  assert (negb (_message =? "")%string) "_message must not be empty." ;;
  Ok (mk _span _message kind).

Definition span (this : t) : Span.t := _span this.

Definition message (this : t) : string := _message this.

Definition translate (this : t) (movement : Z) : result t :=
  new (Span.translate (_span this) movement) (_message this) (kind this).

(** The invariant the constructor enforces. *)
Definition well_formed (this : t) : Prop :=
  1 <= Span.length (span this) /\ message this <> "".

End Issue.



(** ** Rendering spans and positions *)






(** * Parameter files (src/unnamed/part_000) *)

(** ** What the module takes from its host

    Node's [path] module, [String.prototype.toLowerCase] and
    [localeCompare], VS Code's [Uri] and [workspace.getWorkspaceFolder], and
    the constant [isWin32] of ./constants are not part of the sources; the
    functions below are written against this interface and the theorems hold
    for every implementation of it. *)
Class Host : Type := {
  Uri : Type;
  fsPath : Uri -> string;
  Uri_file : string -> Uri;
  WorkspaceFolder : Type;
  getWorkspaceFolder : Uri -> option WorkspaceFolder;
  path_normalize : string -> string;
  path_dirname : string -> string;
  path_basename : string -> string;
  path_extname : string -> string;
  path_resolve : string -> string -> string;
  path_relative : string -> string -> string;
  toLowerCase : string -> string;
  localeCompare : string -> string -> Z;
  isWin32 : bool
}.

(** ** JavaScript values the module handles *)

(** A string is falsy exactly when it is empty. *)
Definition truthy_string (s : string) : bool := negb (s =? "")%string.

(** [String(b)] for a boolean. *)
Definition String_of_bool (b : bool) : string :=
  if b then "true" else "false".

(** A JSON value, as a setting holds it. *)
#[local] Unset Elimination Schemes.
Inductive JsValue : Type :=
| JNull
| JBool (b : bool)
| JNumber (n : Z)
| JString (s : string)
| JArray (items : list JsValue)
| JObject (properties : list (string * JsValue)).
#[local] Set Elimination Schemes.

(** An object used as a map from strings: its own properties in the order
    [Object.getOwnPropertyNames] lists them.  The keys here are file paths or
    names of telemetry properties, none of them an array index, so this is
    the order of insertion. *)
Definition JsObject (V : Type) : Type := list (string * V).

(** Writing the own property [key]: overwrites it where it stands, or adds
    it after the others. *)
Fixpoint obj_define {V : Type} (key : string) (value : V) (obj : JsObject V)
  : JsObject V :=
  match obj with
  | [] => [(key, value)]
  | (k, v) :: rest =>
      if (k =? key)%string then (k, value) :: rest
      else (k, v) :: obj_define key value rest
  end.

(** [obj[key] = value] on an object created by [{}] and filled by such
    assignments.  The key [__proto__] is the accessor of [Object.prototype]:
    the assignment goes to its setter and leaves the own properties as they
    are.  Any other key writes the own property. *)
Definition obj_set {V : Type} (key : string) (value : V) (obj : JsObject V)
  : JsObject V :=
  if (key =? "__proto__")%string then obj else obj_define key value obj.

(** [obj[key]] for a key other than [__proto__]: the own property. *)
Fixpoint obj_get {V : Type} (obj : JsObject V) (key : string) : option V :=
  match obj with
  | [] => None
  | (k, v) :: rest => if (k =? key)%string then Some v else obj_get rest key
  end.

(** [Array.prototype.includes] on an array of strings. *)
Definition includes (array : list string) (searchElement : string) : bool :=
  existsb (String.eqb searchElement) array.

(** A [Set<string>]: its elements in insertion order, each once. *)
Definition StringSet : Type := list string.

Definition Set_has (s : StringSet) (value : string) : bool :=
  existsb (String.eqb value) s.

Definition Set_add (s : StringSet) (value : string) : StringSet :=
  if Set_has s value then s else (s ++ [value])%list.

(** ** File names *)

(** The characters of [s] are all different from the dot: [s] matches
    [[^.]*] up to its end. *)
Fixpoint no_dot (s : string) : bool :=
  match s with
  | EmptyString => true
  | String c rest => negb (Ascii.eqb c ".") && no_dot rest
  end.

(** [fileName.replace(/\.[^.]+$/, '')].  The regular expression matches at
    an index when a dot stands there and what follows, up to the end of the
    string, is non-empty and free of dots; [replace] takes the leftmost such
    index and puts the empty string in place of the match, which reaches the
    end.  Without a match the string is returned as it is. *)
Fixpoint removeAllExtensions (fileName : string) : string :=
  match fileName with
  | EmptyString => EmptyString
  | String c rest =>
      if Ascii.eqb c "." && truthy_string rest && no_dot rest
      then EmptyString
      else String c (removeAllExtensions rest)
  end.

Section ParameterFiles.

Context {host : Host}.

Definition hasSupportedParamFileExtension (filePath : string) : bool :=
  let extension := toLowerCase (path_extname filePath) in
  (extension =? ".json")%string || (extension =? ".jsonc")%string.

(** [baseParamsName.startsWith(baseTemplateName)] is
    [prefix baseTemplateName baseParamsName]. *)
Definition mayBeMatchingParamFile (templateFileName paramFileName : string)
  : bool :=
  if negb (hasSupportedParamFileExtension paramFileName) then false
  else
    let baseTemplateName :=
      toLowerCase (removeAllExtensions (path_basename templateFileName)) in
    let baseParamsName :=
      toLowerCase (removeAllExtensions (path_basename paramFileName)) in
    prefix baseTemplateName baseParamsName.

(** [filePath: Uri | string]. *)
Definition normalizePath (filePath : Uri + string) : string :=
  let fsPath : string :=
    match filePath with
    | inr s => s
    | inl uri => fsPath uri
    end in
  let normalizedPath := path_normalize fsPath in
  if isWin32 then toLowerCase normalizedPath else normalizedPath.

Definition getFriendlyPathToParamFile (templateUri paramFileUri : Uri)
  : string :=
  match getWorkspaceFolder paramFileUri with
  | Some workspaceFolder =>
      path_relative (path_dirname (fsPath templateUri)) (fsPath paramFileUri)
  | None => fsPath paramFileUri
  end.

(** ** The quick pick of [selectParameterFile] *)

Record IPossibleParamFile : Type := {
  uri : Uri;
  friendlyPath : string;
  isCloseNameMatch : bool
}.

(** [IAzureQuickPickItem<IPossibleParamFile | undefined>]. *)
Record QuickPickItem : Type := {
  label : string;
  description : option string;
  data : option IPossibleParamFile
}.

(** The function given to [pickItems.sort].  [a?.data?.isCloseNameMatch] is
    a boolean or [undefined]; [bData] is read from [a], as in the source. *)
Definition pickItems_compare (a b : QuickPickItem) : Z :=
  let aData := data a in
  let bData := data a in
  let close (item : QuickPickItem) : option bool :=
    option_map isCloseNameMatch (data item) in
  let path_or_empty (d : option IPossibleParamFile) : string :=
    match d with
    | Some d => if truthy_string (fsPath (uri d)) then fsPath (uri d) else ""
    | None => ""
    end in
  if negb (match close a, close b with
           | Some x, Some y => Bool.eqb x y
           | None, None => true
           | _, _ => false
           end)
  then
    match close a with
    | Some true => -1
    | _ => 1
    end
  else localeCompare (path_or_empty aData) (path_or_empty bData).

(** ** Asking about parameter files *)

(** What [canAsk] and its companions read and write: the setting
    [checkForMatchingParamFiles] of the configuration, the entry
    [dontAskAboutParamFiles] of [ext.context.globalState], and the module's
    set [_filesToIgnoreThisSession]. *)
Record AskState : Type := {
  checkForMatchingParamFiles : option bool;
  dontAskAboutParamFiles : option (list string);
  _filesToIgnoreThisSession : StringSet
}.

(** [actionContext.telemetry.properties]. *)
Definition TelemetryProperties : Type := JsObject string.

(** Returns its result and the telemetry properties it leaves. *)
Definition canAsk (st : AskState) (templateUri : Uri)
    (properties : TelemetryProperties) : bool * TelemetryProperties :=
  let checkForMatchingParamFilesSetting : bool :=
    match checkForMatchingParamFiles st with
    | Some b => b
    | None => false
    end in
  let properties :=
    obj_set "checkForMatchingParamFiles"
      (String_of_bool checkForMatchingParamFilesSetting) properties in
  if negb checkForMatchingParamFilesSetting then (false, properties)
  else
    let neverAskFiles : list string :=
      match dontAskAboutParamFiles st with
      | Some files => files
      | None => []
      end in
    let key := normalizePath (inl templateUri) in
    if includes neverAskFiles key
    then (false, obj_set "isInDontAskList" "true" properties)
    else
      let ignoreThisSession :=
        Set_has (_filesToIgnoreThisSession st)
          (normalizePath (inl templateUri)) in
      if ignoreThisSession
      then (false, obj_set "ignoreThisSession" "true" properties)
      else (true, properties).

Definition dontAskAgainThisSession (st : AskState) (templateUri : Uri)
  : AskState :=
  {| checkForMatchingParamFiles := checkForMatchingParamFiles st;
     dontAskAboutParamFiles := dontAskAboutParamFiles st;
     _filesToIgnoreThisSession :=
       Set_add (_filesToIgnoreThisSession st)
         (normalizePath (inl templateUri)) |}.

Definition neverAskAgain (st : AskState) (templateUri : Uri) : AskState :=
  let neverAskFiles : list string :=
    match dontAskAboutParamFiles st with
    | Some files => files
    | None => []
    end in
  let key : string := normalizePath (inl templateUri) in
  let neverAskFiles := (neverAskFiles ++ [key])%list in
  {| checkForMatchingParamFiles := checkForMatchingParamFiles st;
     dontAskAboutParamFiles := Some neverAskFiles;
     _filesToIgnoreThisSession := _filesToIgnoreThisSession st |}.

(** The extension starts anew: the module's set is created empty, the
    configuration and the global state are kept. *)
Definition newSession (st : AskState) : AskState :=
  {| checkForMatchingParamFiles := checkForMatchingParamFiles st;
     dontAskAboutParamFiles := dontAskAboutParamFiles st;
     _filesToIgnoreThisSession := [] |}.

(** ** The mapping from templates to parameter files *)

(** The body of the loop of [findMappedParamFileForTemplate] for one own
    property of [paramFiles]. *)
Definition findMapped_step (templateFileUri : Uri)
    (normalizedTemplatePath : string) (paramFile : option Uri)
    (property : string * JsValue) : option Uri :=
  let (fileNameKey, value) := property in
  let normalizedFileName := normalizePath (inr fileNameKey) in
  if (normalizedFileName =? normalizedTemplatePath)%string then
    match value with
    | JString s =>
        let resolvedPath :=
          path_resolve (path_dirname (fsPath templateFileUri)) s in
        if truthy_string resolvedPath then Some (Uri_file resolvedPath)
        else None
    | _ => paramFile
    end
  else paramFile.

(** [paramFiles] is the value of the setting [parameterFiles], of type
    [{ [key: string]: string } | undefined]. *)
Definition findMappedParamFileForTemplate
    (paramFiles : option (JsObject JsValue)) (templateFileUri : Uri)
  : option Uri :=
  match paramFiles with
  | Some paramFiles =>
      let normalizedTemplatePath :=
        normalizePath (inr (fsPath templateFileUri)) in
      fold_left (findMapped_step templateFileUri normalizedTemplatePath)
        paramFiles None
  | None => None
  end.

(** [map] is the value of the setting in the user settings
    ([inspect(...)?.globalValue]); the result is its value afterwards:
    [newMap] when the function reaches [update], [map] itself when it
    returns early. *)
Definition setMappedParamFileForTemplate
    (map : option (JsObject JsValue)) (templateUri : Uri)
    (paramFileUri : option Uri) : option (JsObject JsValue) :=
  let relativeParamFilePath : option string :=
    option_map (getFriendlyPathToParamFile templateUri) paramFileUri in
  let normalizedTemplatePath := normalizePath (inr (fsPath templateUri)) in
  match map with
  | None => None
  | Some map =>
      let newMap : JsObject JsValue :=
        fold_left
          (fun newMap (property : string * JsValue) =>
             let (templatePath, value) := property in
             if negb (normalizePath (inr templatePath)
                      =? normalizedTemplatePath)%string
             then obj_set templatePath value newMap
             else newMap)
          map [] in
      let newMap :=
        match relativeParamFilePath with
        | Some relativeParamFilePath =>
            obj_set (fsPath templateUri) (JString relativeParamFilePath)
              newMap
        | None => newMap
        end in
      Some newMap
  end.

(** ** Names for the statements about the mapping *)

(** The property does not bear on the template whose normalized path is
    [normalizedTemplatePath]. *)
Definition other_template (normalizedTemplatePath : string)
    (property : string * JsValue) : bool :=
  negb (normalizePath (inr (fst property)) =? normalizedTemplatePath)%string.


(** The loop of [setMappedParamFileForTemplate] that fills [newMap]. *)
Definition copy_others (normalizedTemplatePath : string)
    (map newMap : JsObject JsValue) : JsObject JsValue :=
  fold_left
    (fun newMap (property : string * JsValue) =>
       let (templatePath, value) := property in
       if negb (normalizePath (inr templatePath)
                =? normalizedTemplatePath)%string
       then obj_set templatePath value newMap
       else newMap)
    map newMap.

End ParameterFiles.

(** ** Finding parameter files *)

(** What a read stream of a file emits: ['data'] with each chunk in turn,
    then ['end'], or ['error'] in its place when reading fails. *)
Record ReadStream : Type := {
  chunks : list string;
  failure : option exn
}.

(** The file system and [containsParamsSchema] of ./schemas, neither of
    them part of the sources: the stream [fse.createReadStream] opens,
    the names [fse.readdir] resolves to or the error it rejects with, and
    [path.join]. *)
Class FileSystem : Type := {
  containsParamsSchema : string -> bool;
  createReadStream : string -> ReadStream;
  readdir : string -> result (list string);
  path_join : string -> string -> string
}.

Definition readAtMostBytesToFindParamsSchema : Z := 4 * 1024.

(** The text of a list of chunks. *)
Definition content_of (chunks : list string) : string :=
  fold_right append "" chunks.

Section SuggestedFiles.

Context {host : Host} {fs : FileSystem}.

(** The handlers of [doesFileContainString] run on what the stream emits
    after [content] has been read.  The promise keeps the first [resolve] or
    [reject]: ['data'] resolves to true once the text read so far contains
    the schema, ['end'] resolves to false, ['error'] rejects. *)
Fixpoint doesFileContainString_on (chunks : list string) (content : string)
    (failure : option exn) : result bool :=
  match chunks with
  | chunk :: rest =>
      let content := content ++ chunk in
      if containsParamsSchema content then Ok true
      else doesFileContainString_on rest content failure
  | [] =>
      match failure with
      | None => Ok false
      | Some err => Throw err
      end
  end.

(** The body uses neither [matches] nor [maxBytesToRead]. *)
Definition doesFileContainString (filePath : string)
    (matches : string -> bool) (maxBytesToRead : Z) : result bool :=
  let stream := createReadStream filePath in
  let content := "" in
  doesFileContainString_on (chunks stream) content (failure stream).

(** An error is caught and ignored; the function then returns false. *)
Definition isParameterFile (filePath : string) : bool :=
  if negb (hasSupportedParamFileExtension filePath) then false
  else
    match doesFileContainString filePath containsParamsSchema
            readAtMostBytesToFindParamsSchema with
    | Ok true => true
    | Ok false => false
    | Throw error => false
    end.

(** An error of [readdir] is caught and ignored; [paths] is returned as it
    is then. *)
Definition findSuggestedParameterFiles (templateUri : Uri)
  : list IPossibleParamFile :=
  let paths : list IPossibleParamFile := [] in
  let folder := path_dirname (fsPath templateUri) in
  match readdir folder with
  | Ok fileNames =>
      fold_left
        (fun paths paramFileName =>
           let fullPath := path_join folder paramFileName in
           let uri := Uri_file fullPath in
           if isParameterFile fullPath then
             (paths ++
              [{| uri := uri;
                  friendlyPath := getFriendlyPathToParamFile templateUri uri;
                  isCloseNameMatch :=
                    mayBeMatchingParamFile (fsPath templateUri) fullPath |}])
             %list
           else paths)
        fileNames paths
  | Throw error => paths
  end.

(** Some non-empty run of the first chunks, read after [content], contains
    the schema. *)
Definition schema_seen (chunks : list string) (content : string) : Prop :=
  exists n : nat,
    (0 < n <= List.length chunks)%nat /\
    containsParamsSchema (content ++ content_of (firstn n chunks)) = true.

End SuggestedFiles.


(** ** A host to evaluate on

    The simplest host: a [Uri] is its file-system path, every path is
    absolute and normalized and lies outside the workspace folders, a file
    name is its own base name and its extension is what
    [removeAllExtensions] removes, strings are compared in code-point order
    and are in lower case.  It serves to run the functions above on
    concrete inputs. *)
Definition sample_host : Host := {|
  Uri := string;
  fsPath := fun uri => uri;
  Uri_file := fun path => path;
  WorkspaceFolder := unit;
  getWorkspaceFolder := fun _ => None;
  path_normalize := fun path => path;
  path_dirname := fun _ => "/";
  path_basename := fun path => path;
  path_extname := fun path =>
    substring (String.length (removeAllExtensions path))
      (String.length path) path;
  path_resolve := fun _ path => path;
  path_relative := fun _ path => path;
  toLowerCase := fun s => s;
  localeCompare := fun a b =>
    match String.compare a b with
    | Lt => -1
    | Eq => 0
    | Gt => 1
    end;
  isWin32 := false
|}.

(** A folder of three files for the sample host: a template, its
    parameter file, read in two chunks, and a file that cannot be read. *)
Definition sample_fs : FileSystem := {|
  containsParamsSchema := fun content =>
    match index 0 "deploymentParameters.json#" content with
    | Some _ => true
    | None => false
    end;
  createReadStream := fun path =>
    if (path =? "/main.parameters.json")%string then
      {| chunks := ["{ $schema: .../deploymentPara";
                    "meters.json#, parameters: {} }"];
         failure := None |}
    else if (path =? "/main.json")%string then
      {| chunks := ["{ $schema: .../deploymentTemplate.json# }"];
         failure := None |}
    else {| chunks := []; failure := Some (Error "EACCES") |};
  readdir := fun folder =>
    if (folder =? "/")%string
    then Ok ["main.json"; "main.parameters.json"; "locked.json"]
    else Throw (Error "ENOENT");
  path_join := fun folder name => folder ++ name
|}.

(** A quick pick item of the sample host for the parameter file at
    [path]. *)
Definition sample_item (path : string) (close : bool)
  : @QuickPickItem sample_host :=
  @Build_QuickPickItem sample_host path None
    (Some (@Build_IPossibleParamFile sample_host path path close)).


(** * Properties *)

(** ** Numbers *)

Lemma round_exact (z : Z) : Z.abs z <= 9007199254740992 -> round z = z.
Proof.
  intros H. unfold round, two53. apply Z.leb_le in H. now rewrite H.
Qed.

Lemma Number_add_exact (a b : Z) :
  Z.abs (a + b) <= 9007199254740992 -> Number_add a b = a + b.
Proof.
  intros H. unfold Number_add.
  destruct (Z.eqb_spec a 0) as [-> | _]; [reflexivity |].
  destruct (Z.eqb_spec b 0) as [-> | _]; [lia |].
  apply round_exact, H.
Qed.

Lemma Number_sub_exact (a b : Z) :
  Z.abs (a - b) <= 9007199254740992 -> Number_sub a b = a - b.
Proof.
  intros H. unfold Number_sub.
  destruct (Z.eqb_spec b 0) as [-> | _]; [lia |].
  apply round_exact, H.
Qed.

Lemma Number_add_0_r (a : Z) : Number_add a 0 = a.
Proof.
  unfold Number_add. destruct (Z.eqb_spec a 0) as [-> | _]; reflexivity.
Qed.

(** Replaces the sums and differences of the goal that are exact by the
    bounds at hand. *)
Ltac exact_arith :=
  unfold Span.safe, Span.in_document, safe_integer, MAX_SAFE_INTEGER in *;
  repeat match goal with
    | |- context [Number_add ?a ?b] =>
        rewrite (Number_add_exact a b) by lia
    | |- context [Number_sub ?a ?b] =>
        rewrite (Number_sub_exact a b) by lia
    end.

(** ** Span: helper lemmas *)

Ltac span_unfold :=
  unfold Span.contains_default, Span.contains, Span.union, Span.translate,
    Span.endIndex, Span.afterEndIndex, Span.startIndex, Span.length in *;
  cbn [Span._startIndex Span._length] in *.

(** A span is determined by its two fields. *)
Lemma Span_ext (a b : Span.t) :
  Span.startIndex a = Span.startIndex b ->
  Span.length a = Span.length b ->
  a = b.
Proof.
  destruct a, b; span_unfold; intros -> ->; reflexivity.
Qed.

(** Without a positive length the last index is the start index. *)
Lemma Span_endIndex_empty (s : Span.t) :
  Span.length s <= 0 -> Span.endIndex s = Span.startIndex s.
Proof.
  span_unfold. intros H. rewrite Z.gtb_ltb.
  destruct (Z.ltb_spec 0 (Span._length s)); [lia | apply Number_add_0_r].
Qed.

Lemma Span_endIndex_positive (s : Span.t) :
  Span.safe s -> 0 < Span.length s ->
  Span.endIndex s = Span.startIndex s + Span.length s - 1.
Proof.
  span_unfold. intros Hs H. rewrite Z.gtb_ltb.
  destruct (Z.ltb_spec 0 (Span._length s)); [| lia].
  exact_arith. lia.
Qed.

Lemma Span_afterEndIndex_exact (s : Span.t) :
  Span.safe s -> Span.afterEndIndex s = Span.startIndex s + Span.length s.
Proof. span_unfold. intros Hs. exact_arith. reflexivity. Qed.

Lemma Span_in_document_safe (s : Span.t) : Span.in_document s -> Span.safe s.
Proof.
  unfold Span.in_document, Span.safe, safe_integer, MAX_SAFE_INTEGER. lia.
Qed.

Lemma Span_contains_false_iff (s : Span.t) (index : Z) :
  Span.contains s index false = true <->
  Span.startIndex s <= index /\ index <= Span.endIndex s.
Proof.
  unfold Span.contains, Span.startIndex.
  destruct (Z.leb_spec (Span._startIndex s) index) as [Hs | Hs].
  - rewrite Z.leb_le. intuition lia.
  - split; [discriminate | lia].
Qed.

Lemma Span_contains_true_iff (s : Span.t) (index : Z) :
  Span.contains s index true = true <->
  Span.startIndex s <= index /\ index <= Span.afterEndIndex s.
Proof.
  unfold Span.contains, Span.startIndex.
  destruct (Z.leb_spec (Span._startIndex s) index) as [Hs | Hs].
  - rewrite Z.leb_le. intuition lia.
  - split; [discriminate | lia].
Qed.

Lemma Span_translate_length (s : Span.t) (movement : Z) :
  Span.length (Span.translate s movement) = Span.length s.
Proof.
  span_unfold. destruct (movement =? 0); reflexivity.
Qed.

Lemma Span_translate_startIndex (s : Span.t) (movement : Z) :
  safe_integer (Span.startIndex s + movement) ->
  Span.startIndex (Span.translate s movement) = Span.startIndex s + movement.
Proof.
  span_unfold. intros H.
  destruct (Z.eqb_spec movement 0) as [-> | _]; cbn [Span._startIndex].
  - lia.
  - exact_arith. reflexivity.
Qed.

Lemma Span_translate_0 (s : Span.t) : Span.translate s 0 = s.
Proof. reflexivity. Qed.

(** Translating by [a] and then by [b], when the start index stays a safe
    integer on the way. *)
Lemma Span_translate_translate (s : Span.t) (a b : Z) :
  safe_integer (Span.startIndex s + a) ->
  safe_integer (Span.startIndex s + a + b) ->
  Span.translate (Span.translate s a) b =
  Span.new (Span.startIndex s + a + b) (Span.length s).
Proof.
  intros Ha Hb. apply Span_ext; cbn [Span.startIndex Span.length
    Span._startIndex Span._length].
  - fold (Span.startIndex (Span.translate (Span.translate s a) b)).
    rewrite Span_translate_startIndex;
      rewrite Span_translate_startIndex; assumption || reflexivity.
  - fold (Span.length (Span.translate (Span.translate s a) b)).
    now rewrite !Span_translate_length.
Qed.

(** The union of two spans of a document, and that it is one. *)
Lemma Span_union_in_document (a b : Span.t) :
  Span.in_document a -> Span.in_document b ->
  Span.union a (Some b) =
  Span.new (Z.min (Span.startIndex a) (Span.startIndex b))
    (Z.max (Span.startIndex a + Span.length a)
       (Span.startIndex b + Span.length b)
     - Z.min (Span.startIndex a) (Span.startIndex b)) /\
  Span.in_document (Span.union a (Some b)).
Proof.
  intros Ha Hb.
  assert (H : Span.union a (Some b) =
              Span.new (Z.min (Span.startIndex a) (Span.startIndex b))
                (Z.max (Span.startIndex a + Span.length a)
                   (Span.startIndex b + Span.length b)
                 - Z.min (Span.startIndex a) (Span.startIndex b))).
  { span_unfold. exact_arith. reflexivity. }
  split; [exact H |]. rewrite H.
  unfold Span.in_document, MAX_SAFE_INTEGER in *. span_unfold. lia.
Qed.

(** ** Span: the claims *)

(** The span of the doc comments, [[3, 7)]. *)
Example Span_3_4_indexes :
  Span.endIndex (Span.new 3 4) = 6 /\ Span.afterEndIndex (Span.new 3 4) = 7.
Proof. split; reflexivity. Qed.

(** Union covers its arguments whether or not they overlap or touch. *)
Example Span_union_overlap :
  Span.union (Span.new 2 5) (Some (Span.new 4 10)) = Span.new 2 12 /\
  Span.union (Span.new 4 2) (Some (Span.new 0 20)) = Span.new 0 20.
Proof. split; reflexivity. Qed.

(** Past 2^53 the sums are rounded: the index after [Span(2^53 - 1, 2)] is
    2^53, not 2^53 + 1. *)
Example Span_afterEndIndex_rounded :
  Span.afterEndIndex (Span.new 9007199254740991 2) = 9007199254740992 /\
  Span.endIndex (Span.new 9007199254740991 3) = 9007199254740992.
Proof. split; reflexivity. Qed.

(** C1. For every span [s] and every integer [index], [s.contains(index)]
    (with [includeAfterEndIndex] left at its default [false]) is true exactly
    when [s.startIndex <= index <= s.endIndex], and [s.contains(index, true)]
    is true exactly when [s.startIndex <= index <= s.afterEndIndex].  For
    [Span(3,4)]: [contains(2)] is false, [contains(3)] and [contains(6)] are
    true, [contains(7)] is false and [contains(7, true)] is true. *)
Theorem Span_contains_spec :
  (forall (s : Span.t) (index : Z),
      Span.contains_default s index = true <->
      Span.startIndex s <= index /\ index <= Span.endIndex s) /\
  (forall (s : Span.t) (index : Z),
      Span.contains s index true = true <->
      Span.startIndex s <= index /\ index <= Span.afterEndIndex s) /\
  Span.contains_default (Span.new 3 4) 2 = false /\
  Span.contains_default (Span.new 3 4) 3 = true /\
  Span.contains_default (Span.new 3 4) 6 = true /\
  Span.contains_default (Span.new 3 4) 7 = false /\
  Span.contains (Span.new 3 4) 7 true = true.
Proof.
  split; [exact Span_contains_false_iff |].
  split; [exact Span_contains_true_iff |].
  repeat split.
Qed.

(** C2, as the code has it.  For all spans [a] and [b] whose start index,
    length and end are safe integers, and whose covering length, from the
    smaller start to the larger end, is a safe integer, [a.union(b)] is the
    span whose [startIndex] is the minimum of the two start indexes and
    whose [afterEndIndex] is the maximum of the two after-end indexes; among
    such spans it is the only one.  For all spans, union is commutative and
    its start index is the minimum of the two; [Span(0,1)] and [Span(10,1)]
    give [Span(0,11)] in either order; [s.union(undefined)] is [s]; the
    static union returns the present argument when exactly one is absent,
    and [undefined] when both are. *)
Theorem Span_union_spec :
  (forall (a b : Span.t),
      Span.safe a -> Span.safe b ->
      safe_integer
        (Z.max (Span.afterEndIndex a) (Span.afterEndIndex b)
         - Z.min (Span.startIndex a) (Span.startIndex b)) ->
      Span.startIndex (Span.union a (Some b)) =
        Z.min (Span.startIndex a) (Span.startIndex b) /\
      Span.afterEndIndex (Span.union a (Some b)) =
        Z.max (Span.afterEndIndex a) (Span.afterEndIndex b) /\
      (forall (u : Span.t),
          Span.safe u ->
          u = Span.union a (Some b) <->
          Span.startIndex u = Z.min (Span.startIndex a) (Span.startIndex b) /\
          Span.afterEndIndex u =
            Z.max (Span.afterEndIndex a) (Span.afterEndIndex b))) /\
  (forall (a b : Span.t),
      Span.startIndex (Span.union a (Some b)) =
        Z.min (Span.startIndex a) (Span.startIndex b)) /\
  (forall (a b : Span.t), Span.union a (Some b) = Span.union b (Some a)) /\
  Span.union (Span.new 0 1) (Some (Span.new 10 1)) = Span.new 0 11 /\
  Span.union (Span.new 10 1) (Some (Span.new 0 1)) = Span.new 0 11 /\
  (forall (s : Span.t), Span.union s None = s) /\
  (forall (s : Span.t),
      Span.static_union (Some s) None = Some s /\
      Span.static_union None (Some s) = Some s) /\
  Span.static_union None None = None /\
  (forall (a b : Span.t),
      Span.static_union (Some a) (Some b) = Some (Span.union a (Some b))).
Proof.
  split.
  { intros a b Ha Hb Hc.
    rewrite (Span_afterEndIndex_exact a Ha), (Span_afterEndIndex_exact b Hb)
      in *.
    assert (Hu : Span.union a (Some b) =
                 Span.new (Z.min (Span.startIndex a) (Span.startIndex b))
                   (Z.max (Span.startIndex a + Span.length a)
                      (Span.startIndex b + Span.length b)
                    - Z.min (Span.startIndex a) (Span.startIndex b))).
    { span_unfold. exact_arith. reflexivity. }
    assert (He : Span.afterEndIndex (Span.union a (Some b)) =
                 Z.max (Span.startIndex a + Span.length a)
                   (Span.startIndex b + Span.length b)).
    { rewrite Hu. span_unfold. exact_arith. lia. }
    split; [rewrite Hu; reflexivity |]. split; [exact He |].
    intros u Hsafe. split.
    - intros ->. split; [rewrite Hu; reflexivity | exact He].
    - intros [Hs Hend]. rewrite Hu.
      rewrite (Span_afterEndIndex_exact u Hsafe) in Hend.
      apply Span_ext; cbn [Span.startIndex Span.length Span._startIndex
        Span._length]; span_unfold; lia. }
  split; [reflexivity |].
  split.
  { intros a b. unfold Span.union.
    rewrite (Z.min_comm (Span.startIndex a)), (Z.max_comm (Span.afterEndIndex a)).
    reflexivity. }
  repeat split.
Qed.

Lemma Span_union_spec_witness :
  Span.afterEndIndex (Span.union (Span.new 3 4) (Some (Span.new 10 2))) =
  Z.max (Span.afterEndIndex (Span.new 3 4))
    (Span.afterEndIndex (Span.new 10 2)).
Proof.
  destruct Span_union_spec as (Hsafe & _).
  refine (proj1 (proj2 (Hsafe (Span.new 3 4) (Span.new 10 2) _ _ _)));
    unfold Span.safe, safe_integer, MAX_SAFE_INTEGER; cbn; lia.
Defined.

(** The first sentence of C2 fails on the code: the union of [Span(1,1)]
    and [Span(2^53 - 2, 4)], whose fields are safe integers, ends at 2^53,
    where the second span ends at 2^53 + 2. *)
Lemma Span_union_spec_counterexample :
  Span.afterEndIndex
    (Span.union (Span.new 1 1) (Some (Span.new 9007199254740990 4))) <>
  Z.max (Span.afterEndIndex (Span.new 1 1))
    (Span.afterEndIndex (Span.new 9007199254740990 4)).
Proof. vm_compute. discriminate. Qed.

(** C3, as the code has it.  For every span [s] whose start index, length
    and end are safe integers, [s.afterEndIndex - s.startIndex] is
    [s.length], and [s.endIndex] is [s.startIndex + max(s.length - 1, 0)];
    for every span, [s.endIndex] is [s.startIndex] when the length is
    zero. *)
Theorem Span_endIndex_afterEndIndex_spec :
  (forall (s : Span.t),
      Span.safe s ->
      Number_sub (Span.afterEndIndex s) (Span.startIndex s) = Span.length s /\
      Span.afterEndIndex s - Span.startIndex s = Span.length s /\
      Span.endIndex s = Span.startIndex s + Z.max (Span.length s - 1) 0 /\
      (Span.length s > 0 ->
       Span.endIndex s = Span.startIndex s + Span.length s - 1)) /\
  (forall (s : Span.t),
      Span.length s = 0 -> Span.endIndex s = Span.startIndex s).
Proof.
  split.
  - intros s Hs. rewrite (Span_afterEndIndex_exact s Hs).
    assert (He : Span.endIndex s =
                 Span.startIndex s + Z.max (Span.length s - 1) 0).
    { destruct (Z.ltb_spec 0 (Span.length s)) as [Hl | Hl].
      - rewrite (Span_endIndex_positive s Hs Hl). lia.
      - rewrite (Span_endIndex_empty s Hl). lia. }
    repeat split.
    + span_unfold. exact_arith. lia.
    + lia.
    + exact He.
    + intros Hl. rewrite He. lia.
  - intros s Hl. apply Span_endIndex_empty. lia.
Qed.

Lemma Span_endIndex_afterEndIndex_spec_witness :
  (Span.length (Span.new 3 4) > 0 /\ Span.endIndex (Span.new 3 4) = 6) /\
  (Span.length (Span.new 3 0) = 0 /\ Span.endIndex (Span.new 3 0) = 3).
Proof.
  destruct Span_endIndex_afterEndIndex_spec as (Hsafe & Hzero).
  split.
  - split; [reflexivity |].
    assert (Hs : Span.safe (Span.new 3 4)).
    { unfold Span.safe, safe_integer, MAX_SAFE_INTEGER; cbn; lia. }
    destruct (Hsafe (Span.new 3 4) Hs) as (_ & _ & _ & Hpos).
    exact (Hpos eq_refl).
  - split; [reflexivity | exact (Hzero (Span.new 3 0) eq_refl)].
Defined.

(** The first sentence of C3 fails on the code: for [Span(2^53 - 1, 2)],
    whose fields are safe integers, [afterEndIndex - startIndex] is 1, and
    the length is 2. *)
Lemma Span_endIndex_afterEndIndex_spec_counterexample :
  Number_sub (Span.afterEndIndex (Span.new 9007199254740991 2))
    (Span.startIndex (Span.new 9007199254740991 2)) = 1 /\
  Number_sub (Span.afterEndIndex (Span.new 9007199254740991 2))
    (Span.startIndex (Span.new 9007199254740991 2)) <>
  Span.length (Span.new 9007199254740991 2).
Proof. split; [reflexivity | vm_compute; discriminate]. Qed.

(** C4, as the code has it.  For every span [s] and every integer [delta],
    negative ones included, [s.translate(delta)] has the length of [s], and
    it starts at [s.startIndex + delta] (no clamping at zero) when that sum
    is a safe integer; [s.translate(0)] is [s]; and translating by [a] and
    then by [b] is translating by [a + b] when [a + b] and the start indexes
    on the way are safe integers. *)
Theorem Span_translate_spec :
  (forall (s : Span.t) (delta : Z),
      Span.length (Span.translate s delta) = Span.length s /\
      (safe_integer (Span.startIndex s + delta) ->
       Span.startIndex (Span.translate s delta) = Span.startIndex s + delta)) /\
  Span.translate (Span.new 2 3) (-5) = Span.new (-3) 3 /\
  (forall (s : Span.t), Span.translate s 0 = s) /\
  (forall (s : Span.t) (a b : Z),
      safe_integer (a + b) ->
      safe_integer (Span.startIndex s + a) ->
      safe_integer (Span.startIndex s + a + b) ->
      Span.translate (Span.translate s a) b =
      Span.translate s (Number_add a b)).
Proof.
  split.
  { intros s delta. split;
      [apply Span_translate_length | apply Span_translate_startIndex]. }
  split; [reflexivity |].
  split; [exact Span_translate_0 |].
  intros s a b Hab Ha Hb.
  rewrite (Span_translate_translate s a b Ha Hb).
  assert (Hsum : Number_add a b = a + b) by (exact_arith; reflexivity).
  rewrite Hsum. apply Span_ext.
  - rewrite Span_translate_startIndex; [cbn; lia |].
    now replace (Span.startIndex s + (a + b))
      with (Span.startIndex s + a + b) by lia.
  - now rewrite Span_translate_length.
Qed.

Lemma Span_translate_spec_witness :
  Span.startIndex (Span.translate (Span.new 2 3) (-5)) = -3 /\
  Span.translate (Span.translate (Span.new 10 3) (-4)) 7 =
  Span.translate (Span.new 10 3) (Number_add (-4) 7).
Proof.
  destruct Span_translate_spec as (Hfields & _ & _ & Hadd).
  split.
  - apply (proj2 (Hfields (Span.new 2 3) (-5))).
    unfold safe_integer, MAX_SAFE_INTEGER; cbn; lia.
  - apply Hadd; unfold safe_integer, MAX_SAFE_INTEGER; cbn; lia.
Defined.

(** The additivity of C4 fails on the code: [Span(2^53 - 1, 1)] translated
    by 2 and then by -1 starts at 2^53 - 1, translated by [2 + -1] it starts
    at 2^53; the span's fields and the movements are safe integers. *)
Lemma Span_translate_spec_counterexample :
  Span.translate (Span.translate (Span.new 9007199254740991 1) 2) (-1) <>
  Span.translate (Span.new 9007199254740991 1) (Number_add 2 (-1)).
Proof. vm_compute. discriminate. Qed.

(** C9. A span of length zero reports that it contains its own start
    index (with [includeAfterEndIndex] at its default), although no index
    lies in the half-open interval from [startIndex] to [afterEndIndex]. *)
Theorem Span_zero_length_contains_start :
  forall (s : Span.t),
    Span.length s = 0 ->
    Span.contains_default s (Span.startIndex s) = true /\
    (forall (index : Z),
        ~ (Span.startIndex s <= index /\ index < Span.afterEndIndex s)).
Proof.
  intros s Hlen. split.
  - apply Span_contains_false_iff.
    rewrite Span_endIndex_empty by lia. lia.
  - intros index. span_unfold. rewrite Hlen, Number_add_0_r. lia.
Qed.

Lemma Span_zero_length_contains_start_witness :
  Span.length (Span.new 5 0) = 0 /\
  Span.contains_default (Span.new 5 0) 5 = true /\
  ~ (5 <= 5 /\ 5 < Span.afterEndIndex (Span.new 5 0)).
Proof.
  destruct (Span_zero_length_contains_start (Span.new 5 0) eq_refl)
    as [Hc Hempty].
  split; [reflexivity |]. split; [exact Hc | exact (Hempty 5)].
Defined.
(** ** Position *)

(** The constructor of [Position], statement by statement. *)
Lemma Position_new_cases (line column : Z) :
  Position.new line column =
    if line >=? 0 then
      if column >=? 0 then Ok (Position.mk line column)
      else Throw (AssertionError "_column cannot be less than 0")
    else Throw (AssertionError "_line cannot be less than 0").
Proof.
  unfold Position.new, nonNullValue, assert, bind.
  destruct (line >=? 0), (column >=? 0); reflexivity.
Qed.

Lemma Z_geb_0_true (n : Z) : (n >=? 0) = true <-> 0 <= n.
Proof. rewrite Z.geb_leb. apply Z.leb_le. Qed.

Lemma Z_geb_0_false (n : Z) : (n >=? 0) = false <-> n < 0.
Proof. rewrite Z.geb_leb. apply Z.leb_gt. Qed.

(** Both checks failing, the one on the line is reported: it comes first. *)
Example Position_new_negative_line :
  Position.new (-1) (-3) = Throw (AssertionError "_line cannot be less than 0").
Proof. reflexivity. Qed.

Example Position_new_negative_column :
  Position.new 0 (-3) =
    Throw (AssertionError "_column cannot be less than 0").
Proof. reflexivity. Qed.

Example Position_new_origin : Position.new 0 0 = Ok (Position.mk 0 0).
Proof. reflexivity. Qed.

(** C7. Constructing a [Position] fails, with an assertion error, exactly
    when the line or the column is negative; for a non-negative line and
    column it succeeds, and the [line] and [column] getters return the
    constructor's arguments. *)
Theorem Position_new_spec :
  forall (line column : Z),
    ((exists e : exn, Position.new line column = Throw e) <->
     line < 0 \/ column < 0) /\
    ((exists message : string,
         Position.new line column = Throw (AssertionError message)) <->
     line < 0 \/ column < 0) /\
    (0 <= line -> 0 <= column ->
     exists p : Position.t,
       Position.new line column = Ok p /\
       Position.line p = line /\ Position.column p = column).
Proof.
  intros line column. rewrite Position_new_cases.
  destruct (line >=? 0) eqn:Hl; [destruct (column >=? 0) eqn:Hc |].
  - apply Z_geb_0_true in Hl, Hc.
    repeat split; try (intros [e He]; discriminate); try lia.
    intros _ _. exists (Position.mk line column). repeat split.
  - apply Z_geb_0_true in Hl. apply Z_geb_0_false in Hc.
    repeat split; try (intros _; eexists; reflexivity); try lia.
  - apply Z_geb_0_false in Hl.
    repeat split; try (intros _; eexists; reflexivity); try lia.
Qed.

Lemma Position_new_spec_witness :
  exists p : Position.t,
    Position.new 2 7 = Ok p /\ Position.line p = 2 /\ Position.column p = 7.
Proof.
  destruct (Position_new_spec 2 7) as (_ & _ & Hok).
  apply Hok; discriminate.
Defined.

(** ** IssueKind *)

(** C8. [IssueKind] is a closed enumeration: its members are the fifteen
    tags [tleSyntax], [referenceInVar], [unusedVar], [unusedParam],
    [unusedUdfParam], [unusedUdf], [badArgsCount], [badFuncContext],
    [undefinedFunc], [undefinedNs], [undefinedUdf], [undefinedParam],
    [undefinedVar], [varInUdf] and [undefinedVarProp], pairwise distinct, and
    every value of the type is one of them. *)
Theorem IssueKind_closed :
  (forall (kind : IssueKind), In kind IssueKind_members) /\
  NoDup IssueKind_members /\
  List.length IssueKind_members = 15%nat /\
  map IssueKind_value IssueKind_members =
    ["tleSyntax"; "referenceInVar"; "unusedVar"; "unusedParam";
     "unusedUdfParam"; "unusedUdf"; "badArgsCount"; "badFuncContext";
     "undefinedFunc"; "undefinedNs"; "undefinedUdf"; "undefinedParam";
     "undefinedVar"; "varInUdf"; "undefinedVarProp"] /\
  (forall (k1 k2 : IssueKind),
      IssueKind_value k1 = IssueKind_value k2 -> k1 = k2).
Proof.
  split.
  { intros kind. unfold IssueKind_members.
    destruct kind; cbn; repeat (first [left; reflexivity | right]). }
  split.
  { unfold IssueKind_members.
    repeat (constructor; [cbn; intuition discriminate |]). constructor. }
  split; [reflexivity |].
  split; [reflexivity |].
  intros k1 k2. destruct k1, k2; cbn; intros H;
    first [reflexivity | discriminate H].
Qed.

(** ** Issue *)

(** The constructor of [Issue], statement by statement. *)
Lemma Issue_new_cases (s : Span.t) (m : string) (k : IssueKind) :
  Issue.new s m k =
    if 1 <=? Span.length s then
      if (m =? "")%string then
        Throw (AssertionError "_message must not be empty.")
      else Ok (Issue.mk s m k)
    else
      Throw (AssertionError
               "_span's length must be greater than or equal to 1.").
Proof.
  unfold Issue.new, nonNullValue, assert, bind.
  destruct (1 <=? Span.length s), (m =? "")%string; reflexivity.
Qed.

Lemma Issue_new_ok (s : Span.t) (m : string) (k : IssueKind) :
  1 <= Span.length s -> m <> "" -> Issue.new s m k = Ok (Issue.mk s m k).
Proof.
  intros Hl Hm. rewrite Issue_new_cases.
  apply Z.leb_le in Hl. rewrite Hl.
  apply String.eqb_neq in Hm. rewrite Hm. reflexivity.
Qed.

(** What the constructor returns satisfies the invariant and holds the
    arguments. *)
Lemma Issue_new_well_formed (s : Span.t) (m : string) (k : IssueKind)
    (i : Issue.t) :
  Issue.new s m k = Ok i -> i = Issue.mk s m k /\ Issue.well_formed i.
Proof.
  rewrite Issue_new_cases.
  destruct (Z.leb_spec 1 (Span.length s)) as [Hl | Hl]; [| discriminate].
  destruct (String.eqb_spec m "") as [Hm | Hm]; [discriminate |].
  intros [= <-]. split; [reflexivity |]. split; assumption.
Qed.

Example Issue_new_empty_span :
  Issue.new (Span.new 3 0) "Undefined parameter" undefinedParam =
    Throw (AssertionError
             "_span's length must be greater than or equal to 1.").
Proof. reflexivity. Qed.

Example Issue_new_empty_message :
  Issue.new (Span.new 3 1) "" undefinedParam =
    Throw (AssertionError "_message must not be empty.").
Proof. reflexivity. Qed.

(** C5. Constructing an [Issue] fails, with an assertion error, exactly when
    the span's length is below 1 or the message is the empty string; with a
    span of length at least 1 and a non-empty message it succeeds. *)
Theorem Issue_new_spec :
  forall (s : Span.t) (m : string) (k : IssueKind),
    ((exists e : exn, Issue.new s m k = Throw e) <->
     Span.length s < 1 \/ m = "") /\
    ((exists message : string,
         Issue.new s m k = Throw (AssertionError message)) <->
     Span.length s < 1 \/ m = "") /\
    (1 <= Span.length s -> m <> "" ->
     exists i : Issue.t,
       Issue.new s m k = Ok i /\
       Issue.span i = s /\ Issue.message i = m /\ Issue.kind i = k).
Proof.
  intros s m k. split; [| split].
  - rewrite Issue_new_cases.
    destruct (Z.leb_spec 1 (Span.length s)) as [Hl | Hl];
      [destruct (String.eqb_spec m "") as [Hm | Hm] |].
    + split; [intros _; now right | intros _; eexists; reflexivity].
    + split; [intros [e He]; discriminate | intros [H | H]; [lia | easy]].
    + split; [intros _; now left | intros _; eexists; reflexivity].
  - rewrite Issue_new_cases.
    destruct (Z.leb_spec 1 (Span.length s)) as [Hl | Hl];
      [destruct (String.eqb_spec m "") as [Hm | Hm] |].
    + split; [intros _; now right | intros _; eexists; reflexivity].
    + split; [intros [e He]; discriminate | intros [H | H]; [lia | easy]].
    + split; [intros _; now left | intros _; eexists; reflexivity].
  - intros Hl Hm. exists (Issue.mk s m k).
    split; [apply Issue_new_ok; assumption | repeat split].
Qed.

Lemma Issue_new_spec_witness :
  exists i : Issue.t,
    Issue.new (Span.new 3 4) "Undefined variable" undefinedVar = Ok i /\
    Issue.span i = Span.new 3 4 /\
    Issue.message i = "Undefined variable" /\
    Issue.kind i = undefinedVar.
Proof.
  destruct (Issue_new_spec (Span.new 3 4) "Undefined variable" undefinedVar)
    as (_ & _ & Hok).
  apply Hok; discriminate.
Defined.

Lemma Issue_translate_ok (i : Issue.t) (d : Z) :
  Issue.well_formed i ->
  Issue.translate i d =
    Ok (Issue.mk (Span.translate (Issue.span i) d)
                 (Issue.message i) (Issue.kind i)).
Proof.
  intros [Hl Hm]. unfold Issue.translate. apply Issue_new_ok.
  - rewrite Span_translate_length. exact Hl.
  - exact Hm.
Qed.

Lemma Issue_translate_well_formed (i : Issue.t) (d : Z) :
  Issue.well_formed i ->
  Issue.well_formed
    (Issue.mk (Span.translate (Issue.span i) d) (Issue.message i)
       (Issue.kind i)).
Proof.
  intros [Hl Hm]. split; cbn.
  - rewrite Span_translate_length. exact Hl.
  - exact Hm.
Qed.

(** C6, as the code has it.  For every well-formed issue [i] (span of
    length at least 1, non-empty message) and every integer [d],
    [i.translate(d)] is an issue with the message and the kind of [i] and
    with the span [i.span.translate(d)]; translating by [d] and then by [-d]
    gives back [i] when the start index of [i] and its sum with [d] are safe
    integers. *)
Theorem Issue_translate_spec :
  forall (i : Issue.t) (d : Z),
    Issue.well_formed i ->
    (exists j : Issue.t,
        Issue.translate i d = Ok j /\
        Issue.message j = Issue.message i /\
        Issue.kind j = Issue.kind i /\
        Issue.span j = Span.translate (Issue.span i) d) /\
    (safe_integer (Span.startIndex (Issue.span i)) ->
     safe_integer (Span.startIndex (Issue.span i) + d) ->
     (j <- Issue.translate i d ;; Issue.translate j (- d)) = Ok i).
Proof.
  intros i d Hwf. pose proof (Issue_translate_ok i d Hwf) as Hd. split.
  - eexists. split; [exact Hd |]. repeat split.
  - intros Hs Hsd. rewrite Hd. cbn [bind].
    rewrite Issue_translate_ok by (apply Issue_translate_well_formed, Hwf).
    cbn [Issue.span Issue.message Issue.kind Issue._span Issue._message].
    assert (Hz : forall z : Z, z + d + - d = z) by (intros; lia).
    rewrite Span_translate_translate; rewrite ?Hz; try assumption.
    destruct i as [[s l] m k]. reflexivity.
Qed.

Lemma Issue_translate_spec_witness :
  (exists j : Issue.t,
      Issue.translate (Issue.mk (Span.new 3 4) "Unused parameter" unusedParam)
        (-2) = Ok j /\
      Issue.message j = "Unused parameter" /\
      Issue.kind j = unusedParam /\
      Issue.span j = Span.new 1 4) /\
  (j <- Issue.translate
          (Issue.mk (Span.new 3 4) "Unused parameter" unusedParam) (-2) ;;
   Issue.translate j 2) =
    Ok (Issue.mk (Span.new 3 4) "Unused parameter" unusedParam).
Proof.
  destruct (Issue_translate_spec
              (Issue.mk (Span.new 3 4) "Unused parameter" unusedParam) (-2))
    as (Hfields & Hround); [split; discriminate |].
  split; [exact Hfields |].
  apply Hround; unfold safe_integer, MAX_SAFE_INTEGER; cbn; lia.
Defined.

(** The round trip of C6 fails on the code: the well-formed issue at
    [Span(2^53 - 1, 1)], translated by 2 and then by -2, comes back at
    2^53 - 2. *)
Lemma Issue_translate_spec_counterexample :
  Issue.well_formed
    (Issue.mk (Span.new 9007199254740991 1) "Unused parameter" unusedParam)
  /\
  (j <- Issue.translate
          (Issue.mk (Span.new 9007199254740991 1) "Unused parameter"
             unusedParam) 2 ;;
   Issue.translate j (- 2)) =
  Ok (Issue.mk (Span.new 9007199254740990 1) "Unused parameter" unusedParam)
  /\
  (j <- Issue.translate
          (Issue.mk (Span.new 9007199254740991 1) "Unused parameter"
             unusedParam) 2 ;;
   Issue.translate j (- 2)) <>
  Ok (Issue.mk (Span.new 9007199254740991 1) "Unused parameter" unusedParam).
Proof.
  split; [split; discriminate |].
  split; [reflexivity | vm_compute; discriminate].
Qed.

(** ** The constructor of Span checks nothing *)

(** C10. The constructor of [Span] validates nothing: for every pair of
    integers, a negative start index or a negative length included, it
    yields a span whose [startIndex] and [length] are the arguments, whereas
    the constructors of [Position] and [Issue] throw on the inputs they
    reject.  Spans with a negative start index or length are therefore
    representable; with a negative length, [endIndex] equals [startIndex],
    and [afterEndIndex] lies before [startIndex] when the exact end is a
    safe integer. *)
Theorem Span_new_unvalidated :
  (forall (startIndex length : Z),
      Span.startIndex (Span.new startIndex length) = startIndex /\
      Span.length (Span.new startIndex length) = length) /\
  (forall (startIndex length : Z),
      exists s : Span.t,
        Span.startIndex s = startIndex /\ Span.length s = length) /\
  (forall (s : Span.t),
      Span.length s < 0 ->
      Span.endIndex s = Span.startIndex s /\
      (safe_integer (Span.startIndex s + Span.length s) ->
       Span.afterEndIndex s < Span.startIndex s)) /\
  (exists message : string,
      Position.new (-4) 0 = Throw (AssertionError message)) /\
  (exists message : string,
      Issue.new (Span.new (-4) (-2)) "Unused variable" unusedVar =
        Throw (AssertionError message)).
Proof.
  split; [intros; split; reflexivity |].
  split; [intros a b; exists (Span.new a b); split; reflexivity |].
  split.
  { intros s Hlen. split; [apply Span_endIndex_empty; lia |].
    intros Hsafe. span_unfold. exact_arith. lia. }
  split; eexists; reflexivity.
Qed.

Lemma Span_new_unvalidated_witness :
  Span.length (Span.new (-4) (-2)) < 0 /\
  Span.afterEndIndex (Span.new (-4) (-2)) < Span.startIndex (Span.new (-4) (-2)) /\
  Span.endIndex (Span.new (-4) (-2)) = Span.startIndex (Span.new (-4) (-2)).
Proof.
  destruct Span_new_unvalidated as (_ & _ & Hneg & _).
  destruct (Hneg (Span.new (-4) (-2)) eq_refl) as (Hend & Hafter).
  split; [reflexivity |]. split; [| exact Hend].
  apply Hafter. unfold safe_integer, MAX_SAFE_INTEGER; cbn; lia.
Defined.

(** * Further properties of the span model *)

(** ** How the operations of Span compose *)

Lemma Span_union_assoc (a b c : Span.t) :
  Span.in_document a -> Span.in_document b -> Span.in_document c ->
  Span.union (Span.union a (Some b)) (Some c) =
  Span.union a (Some (Span.union b (Some c))).
Proof.
  intros Ha Hb Hc.
  destruct (Span_union_in_document a b Ha Hb) as [Hab Dab].
  destruct (Span_union_in_document b c Hb Hc) as [Hbc Dbc].
  destruct (Span_union_in_document _ c Dab Hc) as [H1 _].
  destruct (Span_union_in_document a _ Ha Dbc) as [H2 _].
  rewrite H1, H2, Hab, Hbc.
  cbn [Span.startIndex Span.length Span._startIndex Span._length].
  f_equal; lia.
Qed.

(** X1. On spans of a document (start index and length not negative, end a
    safe integer) union is associative; on spans whose start index, length
    and end are safe integers it is idempotent.  Past the safe integers it
    is not: the union of [Span(2^53 - 1, 2)] with itself is
    [Span(2^53 - 1, 1)]. *)
Theorem Span_union_assoc_idem :
  (forall (a b c : Span.t),
      Span.in_document a -> Span.in_document b -> Span.in_document c ->
      Span.union (Span.union a (Some b)) (Some c) =
      Span.union a (Some (Span.union b (Some c)))) /\
  (forall (a : Span.t), Span.safe a -> Span.union a (Some a) = a) /\
  Span.union (Span.new 9007199254740991 2)
    (Some (Span.new 9007199254740991 2)) = Span.new 9007199254740991 1.
Proof.
  split; [exact Span_union_assoc | split; [| reflexivity]].
  intros a Ha. apply Span_ext; span_unfold; exact_arith; lia.
Qed.

Lemma Span_union_assoc_idem_witness :
  Span.union (Span.union (Span.new 0 1) (Some (Span.new 10 1)))
    (Some (Span.new 4 2)) =
  Span.union (Span.new 0 1)
    (Some (Span.union (Span.new 10 1) (Some (Span.new 4 2)))) /\
  Span.union (Span.new (-3) 5) (Some (Span.new (-3) 5)) = Span.new (-3) 5.
Proof.
  destruct Span_union_assoc_idem as (Hassoc & Hidem & _).
  split.
  - apply Hassoc; unfold Span.in_document, MAX_SAFE_INTEGER; cbn; lia.
  - apply Hidem. unfold Span.safe, safe_integer, MAX_SAFE_INTEGER; cbn; lia.
Defined.

(** X2. The union of two spans of a document is the least span that covers
    both: it is a span of the document, it starts no later and ends no
    earlier than either, it is at least as long as either, and a span
    starts no later and ends no earlier than both operands exactly when it
    does so for the union. *)
Theorem Span_union_least_cover :
  forall (a b : Span.t),
    Span.in_document a -> Span.in_document b ->
    Span.in_document (Span.union a (Some b)) /\
    (Span.startIndex (Span.union a (Some b)) <= Span.startIndex a /\
     Span.startIndex (Span.union a (Some b)) <= Span.startIndex b /\
     Span.afterEndIndex a <= Span.afterEndIndex (Span.union a (Some b)) /\
     Span.afterEndIndex b <= Span.afterEndIndex (Span.union a (Some b))) /\
    (Span.length a <= Span.length (Span.union a (Some b)) /\
     Span.length b <= Span.length (Span.union a (Some b))) /\
    (forall (c : Span.t),
        (Span.startIndex c <= Span.startIndex a /\
         Span.startIndex c <= Span.startIndex b /\
         Span.afterEndIndex a <= Span.afterEndIndex c /\
         Span.afterEndIndex b <= Span.afterEndIndex c) <->
        (Span.startIndex c <= Span.startIndex (Span.union a (Some b)) /\
         Span.afterEndIndex (Span.union a (Some b)) <= Span.afterEndIndex c)).
Proof.
  intros a b Ha Hb.
  destruct (Span_union_in_document a b Ha Hb) as [Hu Du].
  split; [exact Du |].
  rewrite (Span_afterEndIndex_exact _ (Span_in_document_safe _ Du)).
  rewrite (Span_afterEndIndex_exact a (Span_in_document_safe a Ha)).
  rewrite (Span_afterEndIndex_exact b (Span_in_document_safe b Hb)).
  rewrite Hu.
  cbn [Span.startIndex Span.length Span._startIndex Span._length].
  unfold Span.in_document in *. span_unfold.
  repeat split; try lia.
  all: intros c; lia.
Qed.

Lemma Span_union_least_cover_witness :
  Span.length (Span.new 10 1) <=
  Span.length (Span.union (Span.new 0 1) (Some (Span.new 10 1))).
Proof.
  refine (proj2 (proj1 (proj2 (proj2
            (Span_union_least_cover (Span.new 0 1) (Span.new 10 1) _ _)))));
    unfold Span.in_document, MAX_SAFE_INTEGER; cbn; lia.
Defined.

(** X3. On spans of a document, every index a span of positive length
    contains is contained in its union with any other span, on either side
    of the union; counting the index after the end
    ([includeAfterEndIndex]), this holds for spans of any length.  With the
    default it fails for an empty operand: [Span(5,0)] contains 5, its
    union with [Span(0,3)] does not. *)
Theorem Span_union_contains :
  (forall (a b : Span.t) (index : Z),
      Span.in_document a -> Span.in_document b ->
      0 < Span.length a ->
      Span.contains_default a index = true ->
      Span.contains_default (Span.union a (Some b)) index = true /\
      Span.contains_default (Span.union b (Some a)) index = true) /\
  (forall (a b : Span.t) (index : Z),
      Span.in_document a -> Span.in_document b ->
      Span.contains a index true = true ->
      Span.contains (Span.union a (Some b)) index true = true /\
      Span.contains (Span.union b (Some a)) index true = true) /\
  (Span.contains_default (Span.new 5 0) 5 = true /\
   Span.contains_default
     (Span.union (Span.new 5 0) (Some (Span.new 0 3))) 5 = false).
Proof.
  split; [| split; [| split; reflexivity]].
  - intros a b index Ha Hb Hlen Hc.
    apply Span_contains_false_iff in Hc.
    rewrite (Span_endIndex_positive a (Span_in_document_safe a Ha) Hlen) in Hc.
    assert (Hu : forall u : Span.t,
               Span.in_document u ->
               Span.startIndex u <= Span.startIndex a ->
               Span.startIndex a + Span.length a <=
               Span.startIndex u + Span.length u ->
               Span.contains_default u index = true).
    { intros u Du Hs He. apply Span_contains_false_iff.
      rewrite (Span_endIndex_positive u (Span_in_document_safe u Du)) by lia.
      lia. }
    destruct (Span_union_in_document a b Ha Hb) as [Hab Dab].
    destruct (Span_union_in_document b a Hb Ha) as [Hba Dba].
    split; apply Hu; try assumption;
      rewrite ?Hab, ?Hba;
      cbn [Span.startIndex Span.length Span._startIndex Span._length]; lia.
  - intros a b index Ha Hb Hc.
    apply Span_contains_true_iff in Hc.
    rewrite (Span_afterEndIndex_exact a (Span_in_document_safe a Ha)) in Hc.
    destruct (Span_union_in_document a b Ha Hb) as [Hab Dab].
    destruct (Span_union_in_document b a Hb Ha) as [Hba Dba].
    split; apply Span_contains_true_iff.
    + rewrite (Span_afterEndIndex_exact _ (Span_in_document_safe _ Dab)), Hab.
      cbn [Span.startIndex Span.length Span._startIndex Span._length]. lia.
    + rewrite (Span_afterEndIndex_exact _ (Span_in_document_safe _ Dba)), Hba.
      cbn [Span.startIndex Span.length Span._startIndex Span._length]. lia.
Qed.

Lemma Span_union_contains_witness :
  Span.contains_default (Span.union (Span.new 3 4) (Some (Span.new 10 1))) 6
    = true /\
  Span.contains_default (Span.union (Span.new 10 1) (Some (Span.new 3 4))) 6
    = true.
Proof.
  destruct Span_union_contains as (Hpos & _).
  apply (Hpos (Span.new 3 4) (Span.new 10 1) 6);
    try reflexivity; unfold Span.in_document, MAX_SAFE_INTEGER; cbn; lia.
Defined.

Lemma Span_translate_safe (s : Span.t) (movement : Z) :
  safe_integer (Span.startIndex s + movement) ->
  Span.translate s movement =
  Span.new (Span.startIndex s + movement) (Span.length s).
Proof.
  intros H. apply Span_ext.
  - now rewrite Span_translate_startIndex.
  - now rewrite Span_translate_length.
Qed.

(** X4. Translation shifts what a span contains: when the fields and the
    end of the span and of the shifted span are safe integers, and so is
    [index + movement], the translated span contains [index + movement]
    exactly when the span contains [index], with or without the index after
    the end. *)
Theorem Span_translate_contains :
  forall (s : Span.t) (movement index : Z) (includeAfterEndIndex : bool),
    Span.safe s ->
    Span.safe (Span.new (Span.startIndex s + movement) (Span.length s)) ->
    safe_integer (index + movement) ->
    Span.contains (Span.translate s movement) (Number_add index movement)
      includeAfterEndIndex =
    Span.contains s index includeAfterEndIndex.
Proof.
  intros s movement index inc Hs Ht Hi.
  rewrite Span_translate_safe by apply Ht.
  assert (Hsum : Number_add index movement = index + movement)
    by (exact_arith; reflexivity).
  rewrite Hsum. apply eq_true_iff_eq. destruct inc.
  - rewrite !Span_contains_true_iff.
    rewrite (Span_afterEndIndex_exact _ Ht), (Span_afterEndIndex_exact s Hs).
    cbn [Span.startIndex Span.length Span._startIndex Span._length]. lia.
  - rewrite !Span_contains_false_iff.
    destruct (Z.ltb_spec 0 (Span.length s)) as [Hl | Hl].
    + rewrite (Span_endIndex_positive _ Ht) by exact Hl.
      rewrite (Span_endIndex_positive s Hs Hl).
      cbn [Span.startIndex Span.length Span._startIndex Span._length]. lia.
    + rewrite (Span_endIndex_empty
                 (Span.new (Span.startIndex s + movement) (Span.length s)) Hl),
        (Span_endIndex_empty s Hl).
      cbn [Span.startIndex Span.length Span._startIndex Span._length]. lia.
Qed.

Lemma Span_translate_contains_witness :
  Span.contains (Span.translate (Span.new 3 4) (-3)) (Number_add 6 (-3)) false
  = Span.contains (Span.new 3 4) 6 false.
Proof.
  apply Span_translate_contains;
    unfold Span.safe, safe_integer, MAX_SAFE_INTEGER; cbn; lia.
Defined.

(** X5. Translation distributes over the union of two spans of a document
    that the movement keeps in the document. *)
Theorem Span_translate_union :
  forall (a b : Span.t) (movement : Z),
    Span.in_document a -> Span.in_document b ->
    Span.in_document (Span.new (Span.startIndex a + movement) (Span.length a))
    ->
    Span.in_document (Span.new (Span.startIndex b + movement) (Span.length b))
    ->
    Span.translate (Span.union a (Some b)) movement =
    Span.union (Span.translate a movement)
      (Some (Span.translate b movement)).
Proof.
  intros a b movement Ha Hb Hta Htb.
  destruct (Span_union_in_document a b Ha Hb) as [Hu Du].
  destruct (Span_union_in_document _ _ Hta Htb) as [Htu _].
  assert (Sa : safe_integer (Span.startIndex a + movement)).
  { apply (Span_in_document_safe _ Hta). }
  assert (Sb : safe_integer (Span.startIndex b + movement)).
  { apply (Span_in_document_safe _ Htb). }
  rewrite (Span_translate_safe a movement Sa),
    (Span_translate_safe b movement Sb), Htu.
  rewrite Span_translate_safe; rewrite Hu;
    cbn [Span.startIndex Span.length Span._startIndex Span._length].
  - f_equal; lia.
  - unfold Span.in_document, safe_integer, MAX_SAFE_INTEGER in *.
    span_unfold. lia.
Qed.

Lemma Span_translate_union_witness :
  Span.translate (Span.union (Span.new 3 4) (Some (Span.new 10 1))) (-2) =
  Span.union (Span.translate (Span.new 3 4) (-2))
    (Some (Span.translate (Span.new 10 1) (-2))).
Proof.
  apply Span_translate_union;
    unfold Span.in_document, MAX_SAFE_INTEGER; cbn; lia.
Defined.



(** ** Issue *)

(** X7. Constructing an issue at a translated span is constructing it and
    then translating it, failures included: both throw the same error, or
    both give the same issue. *)
Theorem Issue_new_translate :
  forall (s : Span.t) (m : string) (k : IssueKind) (movement : Z),
    Issue.new (Span.translate s movement) m k =
    (i <- Issue.new s m k ;; Issue.translate i movement).
Proof.
  intros s m k movement. unfold Issue.translate.
  rewrite (Issue_new_cases s m k).
  destruct (1 <=? Span.length s) eqn:Hl;
    [destruct (m =? "")%string eqn:Hm |]; cbn [bind Issue._span
      Issue._message Issue.kind]; try reflexivity.
  all: rewrite Issue_new_cases, Span_translate_length, Hl;
    try rewrite Hm; reflexivity.
Qed.

(** X8. Translating a well-formed issue by [a] and then by [b] is
    translating it by [a + b], when [a + b] and the start indexes on the
    way are safe integers. *)
Theorem Issue_translate_additive :
  forall (i : Issue.t) (a b : Z),
    Issue.well_formed i ->
    safe_integer (a + b) ->
    safe_integer (Span.startIndex (Issue.span i) + a) ->
    safe_integer (Span.startIndex (Issue.span i) + a + b) ->
    (j <- Issue.translate i a ;; Issue.translate j b) =
    Issue.translate i (Number_add a b).
Proof.
  intros i a b Hwf Hab Ha Hb.
  rewrite (Issue_translate_ok i a Hwf). cbn [bind].
  rewrite (Issue_translate_ok i (Number_add a b) Hwf).
  rewrite Issue_translate_ok by (apply Issue_translate_well_formed, Hwf).
  cbn [Issue.span Issue.message Issue.kind Issue._span Issue._message].
  rewrite (Span_translate_translate _ a b Ha Hb).
  assert (Hsum : Number_add a b = a + b) by (exact_arith; reflexivity).
  rewrite Hsum, Span_translate_safe.
  - now rewrite Z.add_assoc.
  - now rewrite Z.add_assoc.
Qed.

Lemma Issue_translate_additive_witness :
  (j <- Issue.translate (Issue.mk (Span.new 3 4) "Unused variable" unusedVar) 5 ;;
   Issue.translate j (-7)) =
  Issue.translate (Issue.mk (Span.new 3 4) "Unused variable" unusedVar)
    (Number_add 5 (-7)).
Proof.
  apply (Issue_translate_additive
           (Issue.mk (Span.new 3 4) "Unused variable" unusedVar) 5 (-7));
    [split; discriminate | | |];
    unfold safe_integer, MAX_SAFE_INTEGER; cbn; lia.
Defined.

(** ** Rendering *)









(** ** File names *)

Lemma no_dot_append_dot (a b : string) :
  no_dot (a ++ String "." b) = false.
Proof.
  induction a as [| c a IH]; cbn [append no_dot].
  - reflexivity.
  - rewrite IH. apply andb_false_r.
Qed.

Lemma prefix_refl (s : string) : prefix s s = true.
Proof.
  induction s as [| c s IH]; cbn [prefix]; [reflexivity |].
  destruct (ascii_dec c c) as [_ | Hc]; [exact IH | now destruct Hc].
Qed.

Lemma prefix_empty (s : string) : prefix "" s = true.
Proof. destruct s; reflexivity. Qed.

Lemma prefix_removeAllExtensions (s : string) :
  prefix (removeAllExtensions s) s = true.
Proof.
  induction s as [| c s IH]; cbn [removeAllExtensions]; [reflexivity |].
  destruct (Ascii.eqb c "." && truthy_string s && no_dot s).
  - reflexivity.
  - cbn [prefix]. destruct (ascii_dec c c) as [_ | Hc];
      [exact IH | now destruct Hc].
Qed.

(** X11. Despite its name, [removeAllExtensions] removes one extension, the
    last: from [base.ext], where [ext] is non-empty and holds no dot, it
    leaves [base], whatever dots [base] holds; so [template.params.json]
    becomes [template.params].  A name without a dot and a name that ends
    in a dot come back unchanged, and the result is always a prefix of the
    name. *)
Theorem removeAllExtensions_last_only :
  (forall (base ext : string),
      ext <> "" -> no_dot ext = true ->
      removeAllExtensions (base ++ "." ++ ext) = base) /\
  (forall (name : string),
      no_dot name = true -> removeAllExtensions name = name) /\
  (forall (name : string),
      removeAllExtensions (name ++ ".") = name ++ ".") /\
  (forall (name : string), prefix (removeAllExtensions name) name = true) /\
  removeAllExtensions "template.params.json" = "template.params".
Proof.
  split; [| split; [| split; [| split; [exact prefix_removeAllExtensions
                                        | reflexivity]]]].
  - intros base ext Hne Hnd.
    induction base as [| c base IH]; cbn [append removeAllExtensions].
    + rewrite Hnd. unfold truthy_string.
      apply String.eqb_neq in Hne. rewrite Hne. reflexivity.
    + cbn [append] in IH. rewrite IH, no_dot_append_dot, andb_false_r.
      reflexivity.
  - intros name. induction name as [| c name IH]; cbn [no_dot
      removeAllExtensions]; [reflexivity |].
    intros H. apply andb_true_iff in H. destruct H as [Hc Hn].
    apply negb_true_iff in Hc. rewrite Hc, (IH Hn). reflexivity.
  - intros name. induction name as [| c name IH];
      cbn [append removeAllExtensions].
    + destruct (Ascii.eqb "." "."); reflexivity.
    + rewrite IH, no_dot_append_dot, andb_false_r. reflexivity.
Qed.

Lemma removeAllExtensions_last_only_witness :
  removeAllExtensions ("azuredeploy.parameters" ++ "." ++ "jsonc") =
  "azuredeploy.parameters".
Proof.
  destruct removeAllExtensions_last_only as (Hstrip & _).
  apply Hstrip; [discriminate | reflexivity].
Defined.

Section ParameterFilesFacts.

Context {host : Host}.

(** X12. [mayBeMatchingParamFile] accepts only parameter files with a
    supported extension; every file with a supported extension matches
    itself as a template; and a template whose base name is empty once its
    extension is removed matches every file with a supported extension. *)
Theorem mayBeMatchingParamFile_edges :
  (forall (templateFileName paramFileName : string),
      mayBeMatchingParamFile templateFileName paramFileName = true ->
      hasSupportedParamFileExtension paramFileName = true) /\
  (forall (fileName : string),
      mayBeMatchingParamFile fileName fileName =
      hasSupportedParamFileExtension fileName) /\
  (forall (templateFileName paramFileName : string),
      toLowerCase (removeAllExtensions (path_basename templateFileName)) = ""
      ->
      mayBeMatchingParamFile templateFileName paramFileName =
      hasSupportedParamFileExtension paramFileName).
Proof.
  unfold mayBeMatchingParamFile. split; [| split].
  - intros t p. destruct (hasSupportedParamFileExtension p);
      [reflexivity | discriminate].
  - intros f. destruct (hasSupportedParamFileExtension f); cbn [negb];
      [apply prefix_refl | reflexivity].
  - intros t p ->. destruct (hasSupportedParamFileExtension p); cbn [negb];
      [apply prefix_empty | reflexivity].
Qed.

(** X13. The function that sorts the quick pick never looks at the path of
    its second argument: its result for [a] and [b] is its result for [a]
    and any [b'] that agrees with [b] on [isCloseNameMatch].  Items with the
    same [isCloseNameMatch] get the result of comparing the path of [a] with
    itself; otherwise the close name match goes first. *)
Theorem pickItems_compare_ignores_second_path :
  (forall (a b b' : QuickPickItem),
      option_map isCloseNameMatch (data b) =
      option_map isCloseNameMatch (data b') ->
      pickItems_compare a b = pickItems_compare a b') /\
  (forall (a b : QuickPickItem) (pa pb : IPossibleParamFile),
      data a = Some pa -> data b = Some pb ->
      isCloseNameMatch pa = isCloseNameMatch pb ->
      pickItems_compare a b =
      localeCompare (fsPath (uri pa)) (fsPath (uri pa))) /\
  (forall (a b : QuickPickItem) (pa pb : IPossibleParamFile),
      data a = Some pa -> data b = Some pb ->
      isCloseNameMatch pa <> isCloseNameMatch pb ->
      pickItems_compare a b = if isCloseNameMatch pa then -1 else 1).
Proof.
  unfold pickItems_compare. split; [| split].
  - intros a b b' ->. reflexivity.
  - intros a b pa pb -> -> H. cbn [option_map]. rewrite H, eqb_reflx.
    cbn [negb]. unfold truthy_string.
    destruct (String.eqb_spec (fsPath (uri pa)) "") as [-> | _]; reflexivity.
  - intros a b pa pb -> -> H. cbn [option_map].
    destruct (isCloseNameMatch pa), (isCloseNameMatch pb);
      cbn; try reflexivity; now destruct H.
Qed.

End ParameterFilesFacts.

Lemma mayBeMatchingParamFile_edges_witness :
  hasSupportedParamFileExtension (host := sample_host)
    "main.parameters.json" = true /\
  mayBeMatchingParamFile (host := sample_host) ".json" "main.parameters.json"
    = true.
Proof.
  destruct (mayBeMatchingParamFile_edges (host := sample_host))
    as (Hsupp & _ & Hempty).
  assert (H : mayBeMatchingParamFile (host := sample_host) ".json"
                "main.parameters.json" = true).
  { rewrite Hempty; reflexivity. }
  split; [exact (Hsupp _ _ H) | exact H].
Defined.

Lemma pickItems_compare_ignores_second_path_witness :
  pickItems_compare (sample_item "/b.json" true) (sample_item "/a.json" true)
  = pickItems_compare (sample_item "/b.json" true)
      (sample_item "/z.json" true) /\
  pickItems_compare (sample_item "/b.json" true) (sample_item "/a.json" true)
  = 0 /\
  pickItems_compare (sample_item "/b.json" false)
    (sample_item "/a.json" true) = 1.
Proof.
  destruct (pickItems_compare_ignores_second_path (host := sample_host))
    as (Hind & Hsame & Hdiff).
  split; [apply Hind; reflexivity |].
  split.
  - rewrite (Hsame (sample_item "/b.json" true) (sample_item "/a.json" true)
               _ _ eq_refl eq_refl eq_refl).
    reflexivity.
  - rewrite (Hdiff (sample_item "/b.json" false)
               (sample_item "/a.json" true) _ _ eq_refl eq_refl);
      [reflexivity | discriminate].
Defined.

(** ** Asking about parameter files *)

Lemma includes_app (l1 l2 : list string) (x : string) :
  includes (l1 ++ l2)%list x = includes l1 x || includes l2 x.
Proof. apply existsb_app. Qed.

Lemma includes_singleton (x y : string) :
  includes [y] x = (x =? y)%string.
Proof. unfold includes. cbn [existsb]. apply orb_false_r. Qed.

Lemma Set_has_add (s : StringSet) (v x : string) :
  Set_has (Set_add s v) x = Set_has s x || (x =? v)%string.
Proof.
  unfold Set_add. destruct (Set_has s v) eqn:Hv.
  - destruct (String.eqb_spec x v) as [-> | _].
    + rewrite Hv. reflexivity.
    + now rewrite orb_false_r.
  - unfold Set_has in *. rewrite existsb_app. cbn [existsb].
    now rewrite orb_false_r.
Qed.

Lemma Set_add_NoDup (s : StringSet) (v : string) :
  NoDup s -> NoDup (Set_add s v).
Proof.
  intros Hs. unfold Set_add. destruct (Set_has s v) eqn:Hv; [exact Hs |].
  apply NoDup_app; [exact Hs | repeat constructor; intros [] |].
  intros x Hx [-> | []].
  unfold Set_has in Hv.
  assert (Ht : existsb (String.eqb x) s = true).
  { apply existsb_exists. exists x. split; [exact Hx | apply String.eqb_refl]. }
  congruence.
Qed.

Lemma obj_get_define {V : Type} (obj : JsObject V) (key key' : string)
    (value : V) :
  obj_get (obj_define key value obj) key' =
  if (key =? key')%string then Some value else obj_get obj key'.
Proof.
  induction obj as [| [k v] obj IH]; cbn [obj_define obj_get].
  - destruct (key =? key')%string; reflexivity.
  - destruct (String.eqb_spec k key) as [-> | Hk]; cbn [obj_get].
    + destruct (key =? key')%string; reflexivity.
    + rewrite IH. destruct (String.eqb_spec k key') as [-> | Hk'];
        [| reflexivity].
      apply String.eqb_neq in Hk. rewrite String.eqb_sym in Hk.
      rewrite Hk. reflexivity.
Qed.

Lemma obj_get_set {V : Type} (obj : JsObject V) (key key' : string)
    (value : V) :
  key <> "__proto__" ->
  obj_get (obj_set key value obj) key' =
  if (key =? key')%string then Some value else obj_get obj key'.
Proof.
  intros Hkey. unfold obj_set. apply String.eqb_neq in Hkey.
  rewrite Hkey. apply obj_get_define.
Qed.

Section AskingFacts.

Context {host : Host}.

(** X14. Once [neverAskAgain] has run for a template, [canAsk] refuses
    every template with the same normalized path, the template itself
    included, and goes on refusing after the extension has started anew;
    when the setting is on, it reports [isInDontAskList] in the
    telemetry. *)
Theorem canAsk_after_neverAskAgain :
  forall (st : AskState) (templateUri other : Uri)
         (properties : TelemetryProperties),
    normalizePath (inl other) = normalizePath (inl templateUri) ->
    fst (canAsk (neverAskAgain st templateUri) other properties) = false /\
    fst (canAsk (newSession (neverAskAgain st templateUri)) other properties)
    = false /\
    (checkForMatchingParamFiles st = Some true ->
     obj_get (snd (canAsk (neverAskAgain st templateUri) other properties))
       "isInDontAskList" = Some "true").
Proof.
  intros st t t' props Hn. unfold canAsk, neverAskAgain, newSession.
  cbn [checkForMatchingParamFiles dontAskAboutParamFiles
         _filesToIgnoreThisSession].
  rewrite Hn, includes_app, includes_singleton, String.eqb_refl, orb_true_r.
  destruct (checkForMatchingParamFiles st) as [[|] |]; cbn [negb fst snd];
    repeat split; try reflexivity; try discriminate.
  intros _. rewrite obj_get_set by discriminate. reflexivity.
Qed.

(** X15. Once [dontAskAgainThisSession] has run for a template, [canAsk]
    refuses every template with the same normalized path for the rest of
    the session; after the extension has started anew, [canAsk] answers as
    if it had never run. *)
Theorem canAsk_after_dontAskAgainThisSession :
  forall (st : AskState) (templateUri other : Uri)
         (properties : TelemetryProperties),
    normalizePath (inl other) = normalizePath (inl templateUri) ->
    fst (canAsk (dontAskAgainThisSession st templateUri) other properties)
    = false /\
    canAsk (newSession (dontAskAgainThisSession st templateUri)) other
      properties = canAsk (newSession st) other properties.
Proof.
  intros st t t' props Hn. split; [| reflexivity].
  unfold canAsk, dontAskAgainThisSession.
  cbn [checkForMatchingParamFiles dontAskAboutParamFiles
         _filesToIgnoreThisSession].
  rewrite Hn, Set_has_add, String.eqb_refl, orb_true_r.
  destruct (checkForMatchingParamFiles st) as [[|] |]; cbn [negb fst];
    try reflexivity.
  destruct (includes _ _); reflexivity.
Qed.

(** X16. [neverAskAgain] and [dontAskAgainThisSession] for one template
    leave the answer and the telemetry of [canAsk] unchanged for every
    template with a different normalized path. *)
Theorem canAsk_other_template :
  forall (st : AskState) (templateUri other : Uri)
         (properties : TelemetryProperties),
    normalizePath (inl other) <> normalizePath (inl templateUri) ->
    canAsk (neverAskAgain st templateUri) other properties =
    canAsk st other properties /\
    canAsk (dontAskAgainThisSession st templateUri) other properties =
    canAsk st other properties.
Proof.
  intros st t t' props Hn. apply String.eqb_neq in Hn.
  unfold canAsk, neverAskAgain, dontAskAgainThisSession.
  cbn [checkForMatchingParamFiles dontAskAboutParamFiles
         _filesToIgnoreThisSession].
  rewrite includes_app, includes_singleton, Set_has_add, Hn, !orb_false_r.
  split; reflexivity.
Qed.

(** X17. [dontAskAgainThisSession] is idempotent and keeps the session set
    free of duplicates, whereas [neverAskAgain] stores the key once more
    each time it runs: the stored list grows by one, whether or not it
    held the key. *)
Theorem dontAskAgain_idempotent_neverAskAgain_grows :
  (forall (st : AskState) (templateUri : Uri),
      dontAskAgainThisSession (dontAskAgainThisSession st templateUri)
        templateUri = dontAskAgainThisSession st templateUri) /\
  (forall (st : AskState) (templateUri : Uri),
      NoDup (_filesToIgnoreThisSession st) ->
      NoDup (_filesToIgnoreThisSession
               (dontAskAgainThisSession st templateUri))) /\
  (forall (st : AskState) (templateUri : Uri),
      let files (s : AskState) : list string :=
        match dontAskAboutParamFiles s with
        | Some files => files
        | None => []
        end in
      let key := normalizePath (inl templateUri) in
      List.length (files (neverAskAgain st templateUri)) =
      S (List.length (files st)) /\
      count_occ string_dec (files (neverAskAgain st templateUri)) key =
      S (count_occ string_dec (files st) key)).
Proof.
  split; [| split].
  - intros st t. unfold dontAskAgainThisSession.
    cbn [checkForMatchingParamFiles dontAskAboutParamFiles
           _filesToIgnoreThisSession].
    f_equal. unfold Set_add at 1.
    rewrite Set_has_add, String.eqb_refl, orb_true_r. reflexivity.
  - intros st t Hs. cbn. apply Set_add_NoDup, Hs.
  - intros st t files key. subst files key.
    unfold neverAskAgain. cbn [dontAskAboutParamFiles].
    rewrite length_app, count_occ_app. cbn [List.length count_occ].
    destruct (string_dec _ _) as [_ | Hk]; [lia | now destruct Hk].
Qed.

End AskingFacts.

Lemma canAsk_after_neverAskAgain_witness :
  fst (canAsk (host := sample_host)
         (neverAskAgain (host := sample_host)
            {| checkForMatchingParamFiles := Some true;
               dontAskAboutParamFiles := None;
               _filesToIgnoreThisSession := [] |} "/t/main.json")
         "/t/main.json" []) = false /\
  obj_get
    (snd (canAsk (host := sample_host)
            (neverAskAgain (host := sample_host)
               {| checkForMatchingParamFiles := Some true;
                  dontAskAboutParamFiles := None;
                  _filesToIgnoreThisSession := [] |} "/t/main.json")
            "/t/main.json" [])) "isInDontAskList" = Some "true".
Proof.
  destruct (canAsk_after_neverAskAgain (host := sample_host)
              {| checkForMatchingParamFiles := Some true;
                 dontAskAboutParamFiles := None;
                 _filesToIgnoreThisSession := [] |}
              "/t/main.json" "/t/main.json" [] eq_refl)
    as (Hrefuse & _ & Htelemetry).
  split; [exact Hrefuse | exact (Htelemetry eq_refl)].
Defined.

Lemma canAsk_after_dontAskAgainThisSession_witness :
  fst (canAsk (host := sample_host)
         (dontAskAgainThisSession (host := sample_host)
            {| checkForMatchingParamFiles := Some true;
               dontAskAboutParamFiles := None;
               _filesToIgnoreThisSession := [] |} "/t/main.json")
         "/t/main.json" []) = false.
Proof.
  exact (proj1 (canAsk_after_dontAskAgainThisSession (host := sample_host)
                  {| checkForMatchingParamFiles := Some true;
                     dontAskAboutParamFiles := None;
                     _filesToIgnoreThisSession := [] |}
                  "/t/main.json" "/t/main.json" [] eq_refl)).
Defined.

Lemma canAsk_other_template_witness :
  fst (canAsk (host := sample_host)
         (neverAskAgain (host := sample_host)
            {| checkForMatchingParamFiles := Some true;
               dontAskAboutParamFiles := None;
               _filesToIgnoreThisSession := [] |} "/t/main.json")
         "/t/other.json" []) = true.
Proof.
  rewrite (proj1 (canAsk_other_template (host := sample_host)
                    {| checkForMatchingParamFiles := Some true;
                       dontAskAboutParamFiles := None;
                       _filesToIgnoreThisSession := [] |}
                    "/t/main.json" "/t/other.json" [] ltac:(discriminate))).
  reflexivity.
Defined.

Lemma dontAskAgain_idempotent_neverAskAgain_grows_witness :
  NoDup (_filesToIgnoreThisSession
           (dontAskAgainThisSession (host := sample_host)
              {| checkForMatchingParamFiles := Some true;
                 dontAskAboutParamFiles := Some ["/t/main.json"];
                 _filesToIgnoreThisSession := ["/t/a.json"] |}
              "/t/main.json")).
Proof.
  destruct (dontAskAgain_idempotent_neverAskAgain_grows (host := sample_host))
    as (_ & Hnodup & _).
  apply Hnodup. cbn. repeat constructor. intros [].
Defined.

(** ** The mapping from templates to parameter files *)

Lemma obj_set_keys {V : Type} (Q : string -> Prop) (obj : JsObject V)
    (key : string) (value : V) :
  Forall (fun property => Q (fst property)) obj -> Q key ->
  Forall (fun property => Q (fst property)) (obj_set key value obj).
Proof.
  intros Hobj Hkey. unfold obj_set.
  destruct (key =? "__proto__")%string; [exact Hobj |].
  induction Hobj as [| [k v] obj Hk Hobj IH]; cbn [obj_define].
  - repeat constructor. exact Hkey.
  - destruct (k =? key)%string; constructor; assumption.
Qed.

Lemma obj_set_fresh {V : Type} (obj : JsObject V) (key : string) (value : V) :
  ~ In key (List.map fst obj) ->
  obj_set key value obj =
  if (key =? "__proto__")%string then obj else (obj ++ [(key, value)])%list.
Proof.
  unfold obj_set. destruct (key =? "__proto__")%string; [reflexivity |].
  induction obj as [| [k v] obj IH]; cbn [obj_define List.map fst In app];
    [reflexivity |].
  intros H. destruct (String.eqb_spec k key) as [-> | _].
  - exfalso. apply H. now left.
  - f_equal. apply IH. intros Hin. apply H. now right.
Qed.

Section MappingFacts.

Context {host : Host}.

Lemma findMapped_fold_others (t : Uri) (nt : string)
    (l : JsObject JsValue) (acc : option Uri) :
  Forall (fun property => other_template nt property = true) l ->
  fold_left (findMapped_step t nt) l acc = acc.
Proof.
  intros Hl. revert acc.
  induction Hl as [| [k v] l Hk Hl IH]; intros acc; cbn [fold_left];
    [reflexivity |].
  rewrite IH. unfold findMapped_step, other_template in *. cbn [fst] in Hk.
  apply negb_true_iff in Hk. rewrite Hk. reflexivity.
Qed.

Lemma copy_others_keys (nt : string) (map newMap : JsObject JsValue) :
  Forall (fun property => other_template nt property = true) newMap ->
  Forall (fun property => other_template nt property = true)
    (copy_others nt map newMap).
Proof.
  unfold copy_others. revert newMap.
  induction map as [| [k v] map IH]; intros newMap Hn; cbn [fold_left];
    [exact Hn |].
  apply IH. destruct (negb _) eqn:Hk; [| exact Hn].
  apply (obj_set_keys
           (fun key => negb (normalizePath (inr key) =? nt)%string = true));
    assumption.
Qed.

Lemma other_template_fresh (nt key : string) (obj : JsObject JsValue) :
  normalizePath (inr key) = nt ->
  Forall (fun property => other_template nt property = true) obj ->
  ~ In key (List.map fst obj).
Proof.
  intros Hkey Hobj Hin. apply in_map_iff in Hin.
  destruct Hin as [[k v] [Hk Hin]]. cbn [fst] in Hk. subst k.
  rewrite Forall_forall in Hobj. specialize (Hobj _ Hin).
  unfold other_template in Hobj. cbn [fst] in Hobj.
  rewrite Hkey, String.eqb_refl in Hobj. discriminate.
Qed.



(** After the loop, [newMap] holds no key of the template, so the
    assignment that follows adds a property at the end, unless the key is
    [__proto__]. *)
Lemma setMapped_newMap (map : JsObject JsValue) (t : Uri)
    (paramFileUri : option Uri) :
  setMappedParamFileForTemplate (Some map) t paramFileUri =
  Some (copy_others (normalizePath (inr (fsPath t))) map [] ++
        match paramFileUri with
        | Some p =>
            if (fsPath t =? "__proto__")%string then []
            else [(fsPath t, JString (getFriendlyPathToParamFile t p))]
        | None => []
        end)%list.
Proof.
  unfold setMappedParamFileForTemplate. fold (copy_others
    (normalizePath (inr (fsPath t))) map []).
  destruct paramFileUri as [p |]; cbn [option_map].
  - rewrite obj_set_fresh.
    + destruct (fsPath t =? "__proto__")%string;
        [now rewrite app_nil_r | reflexivity].
    + apply (other_template_fresh (normalizePath (inr (fsPath t))));
        [reflexivity | apply copy_others_keys; constructor].
  - now rewrite app_nil_r.
Qed.

(** X18. [findMappedParamFileForTemplate] answers from the last property
    whose key normalizes to the template's path and whose value is a
    string: properties after it that bear on other templates, or whose
    value is not a string, do not count.  Without any property for the
    template, and without a value for the setting, the answer is
    [undefined]. *)
Theorem findMapped_last_string_wins :
  (forall (before after : JsObject JsValue) (key s : string) (t : Uri),
      normalizePath (inr key) = normalizePath (inr (fsPath t)) ->
      Forall (fun property =>
                other_template (normalizePath (inr (fsPath t))) property
                = true \/
                forall s' : string, snd property <> JString s') after ->
      findMappedParamFileForTemplate
        (Some (before ++ (key, JString s) :: after)%list) t =
      let resolvedPath := path_resolve (path_dirname (fsPath t)) s in
      if truthy_string resolvedPath then Some (Uri_file resolvedPath)
      else None) /\
  (forall (paramFiles : JsObject JsValue) (t : Uri),
      Forall (fun property =>
                other_template (normalizePath (inr (fsPath t))) property
                = true) paramFiles ->
      findMappedParamFileForTemplate (Some paramFiles) t = None) /\
  (forall (t : Uri), findMappedParamFileForTemplate None t = None).
Proof.
  split; [| split; [| reflexivity]].
  - intros before after key s t Hkey Hafter.
    unfold findMappedParamFileForTemplate.
    rewrite fold_left_app. cbn [fold_left].
    set (nt := normalizePath (inr (fsPath t))) in *.
    assert (Hstep : forall acc,
               findMapped_step t nt acc (key, JString s) =
               let resolvedPath := path_resolve (path_dirname (fsPath t)) s in
               if truthy_string resolvedPath then Some (Uri_file resolvedPath)
               else None).
    { intros acc. unfold findMapped_step.
      rewrite Hkey, String.eqb_refl. reflexivity. }
    rewrite Hstep. clear Hstep. cbv zeta.
    generalize (if truthy_string (path_resolve (path_dirname (fsPath t)) s)
                then Some (Uri_file
                             (path_resolve (path_dirname (fsPath t)) s))
                else None).
    induction Hafter as [| [k v] after Hk Hafter IH]; intros acc;
      cbn [fold_left]; [reflexivity |].
    rewrite IH. unfold findMapped_step.
    destruct Hk as [Hk | Hk].
    + unfold other_template in Hk. cbn [fst] in Hk.
      apply negb_true_iff in Hk. rewrite Hk. reflexivity.
    + cbn [snd] in Hk.
      destruct (normalizePath (inr k) =? nt)%string; [| reflexivity].
      destruct v; try reflexivity. now destruct (Hk s0).
  - intros paramFiles t Hall. unfold findMappedParamFileForTemplate.
    apply findMapped_fold_others, Hall.
Qed.

(** X19. What [setMappedParamFileForTemplate] stores is what
    [findMappedParamFileForTemplate] finds when it reads the stored value:
    after mapping [t] to [p], the friendly path of [p] resolved against the
    folder of [t] (which is [p] when resolving undoes the friendly path);
    after removing the mapping of [t], nothing.  A template whose path is
    [__proto__] gets no property and is not found.  When the user settings
    hold no value for the setting, nothing is stored. *)
Theorem setMapped_then_findMapped :
  (forall (map : JsObject JsValue) (t p : Uri),
      findMappedParamFileForTemplate
        (setMappedParamFileForTemplate (Some map) t (Some p)) t =
      if (fsPath t =? "__proto__")%string then None
      else
        let resolvedPath :=
          path_resolve (path_dirname (fsPath t))
            (getFriendlyPathToParamFile t p) in
        if truthy_string resolvedPath then Some (Uri_file resolvedPath)
        else None) /\
  (forall (map : JsObject JsValue) (t p : Uri),
      path_resolve (path_dirname (fsPath t)) (getFriendlyPathToParamFile t p)
      = fsPath p ->
      fsPath p <> "" ->
      Uri_file (fsPath p) = p ->
      findMappedParamFileForTemplate
        (setMappedParamFileForTemplate (Some map) t (Some p)) t =
      if (fsPath t =? "__proto__")%string then None else Some p) /\
  (forall (map : JsObject JsValue) (t : Uri),
      findMappedParamFileForTemplate
        (setMappedParamFileForTemplate (Some map) t None) t = None) /\
  (forall (t : Uri) (paramFileUri : option Uri),
      setMappedParamFileForTemplate None t paramFileUri = None).
Proof.
  assert (Hfind : forall (map : JsObject JsValue) (t p : Uri),
             findMappedParamFileForTemplate
               (setMappedParamFileForTemplate (Some map) t (Some p)) t =
             if (fsPath t =? "__proto__")%string then None
             else
               let resolvedPath :=
                 path_resolve (path_dirname (fsPath t))
                   (getFriendlyPathToParamFile t p) in
               if truthy_string resolvedPath then Some (Uri_file resolvedPath)
               else None).
  { intros map t p. rewrite setMapped_newMap.
    unfold findMappedParamFileForTemplate.
    rewrite fold_left_app.
    rewrite (findMapped_fold_others t _ (copy_others _ map []))
      by (apply copy_others_keys; constructor).
    destruct (fsPath t =? "__proto__")%string; [reflexivity |].
    cbn [fold_left]. unfold findMapped_step.
    rewrite String.eqb_refl. reflexivity. }
  split; [exact Hfind |]. split; [| split; [| reflexivity]].
  - intros map t p Hres Hne Huri. rewrite Hfind.
    destruct (fsPath t =? "__proto__")%string; [reflexivity |]. cbn zeta.
    rewrite Hres. unfold truthy_string.
    apply String.eqb_neq in Hne. rewrite Hne, Huri. reflexivity.
  - intros map t. rewrite setMapped_newMap, app_nil_r.
    unfold findMappedParamFileForTemplate.
    apply findMapped_fold_others, copy_others_keys. constructor.
Qed.


End MappingFacts.

Lemma findMapped_last_string_wins_witness :
  findMappedParamFileForTemplate (host := sample_host)
    (Some [("/t/other.json", JString "/p/other.json");
           ("/t/main.json", JString "/p/main.parameters.json");
           ("/t/last.json", JString "/p/last.json");
           ("/t/main.json.bak", JNull)])
    "/t/main.json" = Some "/p/main.parameters.json" /\
  findMappedParamFileForTemplate (host := sample_host)
    (Some [("/t/other.json", JString "/p/other.json")]) "/t/main.json"
  = None.
Proof.
  destruct (findMapped_last_string_wins (host := sample_host))
    as (Hlast & Hnone & _).
  split.
  - apply (Hlast [("/t/other.json", JString "/p/other.json")]
             [("/t/last.json", JString "/p/last.json");
              ("/t/main.json.bak", JNull)]
             "/t/main.json" "/p/main.parameters.json" "/t/main.json" eq_refl).
    repeat constructor; left; reflexivity.
  - apply Hnone. repeat constructor.
Defined.

Lemma setMapped_then_findMapped_witness :
  findMappedParamFileForTemplate (host := sample_host)
    (setMappedParamFileForTemplate (host := sample_host)
       (Some [("/t/main.json", JString "/p/old.json");
              ("/t/other.json", JString "/p/other.json")])
       "/t/main.json" (Some "/p/main.parameters.json"))
    "/t/main.json" = Some "/p/main.parameters.json".
Proof.
  destruct (setMapped_then_findMapped (host := sample_host))
    as (_ & Hround & _).
  etransitivity;
    [apply Hround; [reflexivity | discriminate | reflexivity] | reflexivity].
Defined.


(** ** Finding parameter files *)

Lemma append_assoc (a b c : string) : (a ++ b) ++ c = a ++ (b ++ c).
Proof.
  induction a as [| x a IH]; cbn [append]; [reflexivity | now rewrite IH].
Qed.

Lemma append_empty_r (a : string) : a ++ "" = a.
Proof.
  induction a as [| x a IH]; cbn [append]; [reflexivity | now rewrite IH].
Qed.

Section SuggestedFilesFacts.

Context {host : Host} {fs : FileSystem}.

Lemma content_of_cons (content chunk : string) (rest : list string) :
  content ++ content_of (chunk :: rest) = (content ++ chunk) ++ content_of rest.
Proof. cbn [content_of fold_right]. now rewrite append_assoc. Qed.

Lemma schema_seen_cons (chunk : string) (rest : list string)
    (content : string) :
  schema_seen (chunk :: rest) content <->
  containsParamsSchema (content ++ chunk) = true \/
  schema_seen rest (content ++ chunk).
Proof.
  unfold schema_seen. split.
  - intros [[| [| n]] [Hn H]]; [cbn in Hn; lia | left | right].
    + rewrite firstn_cons, content_of_cons in H. cbn in H.
      now rewrite append_empty_r in H.
    + exists (S n). cbn [List.length] in Hn. split; [lia |].
      now rewrite firstn_cons, content_of_cons in H.
  - intros [H | [n [Hn H]]].
    + exists 1%nat. cbn [List.length]. split; [lia |].
      rewrite firstn_cons, content_of_cons. cbn.
      now rewrite append_empty_r.
    + exists (S n). cbn [List.length]. split; [lia |].
      now rewrite firstn_cons, content_of_cons.
Qed.

Lemma doesFileContainString_on_seen (chunks : list string) (content : string)
    (failure : option exn) :
  schema_seen chunks content ->
  doesFileContainString_on chunks content failure = Ok true.
Proof.
  revert content. induction chunks as [| chunk rest IH]; intros content H.
  - destruct H as [n [Hn _]]. cbn in Hn. lia.
  - cbn [doesFileContainString_on].
    destruct (containsParamsSchema (content ++ chunk)) eqn:Hc;
      [reflexivity |].
    apply IH. apply schema_seen_cons in H. destruct H as [H | H];
      [congruence | exact H].
Qed.

Lemma doesFileContainString_on_unseen (chunks : list string)
    (content : string) (failure : option exn) :
  ~ schema_seen chunks content ->
  doesFileContainString_on chunks content failure =
  match failure with
  | None => Ok false
  | Some err => Throw err
  end.
Proof.
  revert content. induction chunks as [| chunk rest IH]; intros content H;
    cbn [doesFileContainString_on]; [reflexivity |].
  destruct (containsParamsSchema (content ++ chunk)) eqn:Hc.
  - exfalso. apply H, schema_seen_cons. now left.
  - apply IH. intros Hs. apply H, schema_seen_cons. now right.
Qed.

Lemma schema_seen_dec (chunks : list string) (content : string) :
  schema_seen chunks content \/ ~ schema_seen chunks content.
Proof.
  revert content. induction chunks as [| chunk rest IH]; intros content.
  - right. intros [n [Hn _]]. cbn in Hn. lia.
  - destruct (containsParamsSchema (content ++ chunk)) eqn:Hc.
    + left. apply schema_seen_cons. now left.
    + destruct (IH (content ++ chunk)) as [H | H].
      * left. apply schema_seen_cons. now right.
      * right. intros Hs. apply schema_seen_cons in Hs.
        destruct Hs; [congruence | contradiction].
Qed.

(** X21. [doesFileContainString] resolves to true exactly when the text of
    some non-empty run of the first chunks of the file contains the
    parameter schema, however long that text is: [maxBytesToRead] sets no
    bound.  Otherwise it resolves to false when the stream ends, and
    rejects with the stream's error when reading fails; a failure after the
    schema has been seen goes unnoticed. *)
Theorem doesFileContainString_spec :
  forall (filePath : string) (matches : string -> bool) (maxBytesToRead : Z),
    let stream := createReadStream filePath in
    let outcome := doesFileContainString filePath matches maxBytesToRead in
    (outcome = Ok true <-> schema_seen (chunks stream) "") /\
    (outcome = Ok false <->
     ~ schema_seen (chunks stream) "" /\ failure stream = None) /\
    (forall err : exn,
        outcome = Throw err <->
        ~ schema_seen (chunks stream) "" /\ failure stream = Some err).
Proof.
  intros filePath matches maxBytesToRead stream outcome.
  subst outcome. unfold doesFileContainString. fold stream.
  destruct (schema_seen_dec (chunks stream) "") as [Hs | Hs].
  - rewrite (doesFileContainString_on_seen _ _ _ Hs).
    repeat split; try discriminate; try tauto.
  - rewrite (doesFileContainString_on_unseen _ _ _ Hs).
    destruct (failure stream) as [e |].
    + repeat split; try discriminate; try tauto; try congruence.
      * intros [_ H]. discriminate.
      * intros [_ H]. congruence.
    + repeat split; try discriminate; try tauto.
      intros [_ H]. discriminate.
Qed.

Lemma findSuggested_fold (templateUri : Uri) (folder : string)
    (fileNames : list string) (paths : list IPossibleParamFile) :
  fold_left
    (fun paths paramFileName =>
       let fullPath := path_join folder paramFileName in
       let uri := Uri_file fullPath in
       if isParameterFile fullPath then
         (paths ++
          [{| uri := uri;
              friendlyPath := getFriendlyPathToParamFile templateUri uri;
              isCloseNameMatch :=
                mayBeMatchingParamFile (fsPath templateUri) fullPath |}])%list
       else paths)
    fileNames paths =
  (paths ++
   List.map
     (fun paramFileName =>
        {| uri := Uri_file (path_join folder paramFileName);
           friendlyPath :=
             getFriendlyPathToParamFile templateUri
               (Uri_file (path_join folder paramFileName));
           isCloseNameMatch :=
             mayBeMatchingParamFile (fsPath templateUri)
               (path_join folder paramFileName) |})
     (filter (fun paramFileName =>
                isParameterFile (path_join folder paramFileName))
        fileNames))%list.
Proof.
  revert paths. induction fileNames as [| name fileNames IH]; intros paths;
    cbn [fold_left filter List.map].
  - now rewrite app_nil_r.
  - rewrite IH. cbv zeta.
    destruct (isParameterFile (path_join folder name)); cbn [List.map];
      [now rewrite <- app_assoc | reflexivity].
Qed.

(** X22. [findSuggestedParameterFiles] suggests the files of the
    template's folder that have a supported extension and contain the
    parameter schema, one suggestion per file and in the order [readdir]
    lists them, each flagged as a close name match exactly when
    [mayBeMatchingParamFile] says so.  A file that cannot be read is not
    suggested, and when the folder cannot be read there is no suggestion
    and no error. *)
Theorem findSuggestedParameterFiles_spec :
  forall (templateUri : Uri),
    let folder := path_dirname (fsPath templateUri) in
    (forall fileNames : list string,
        readdir folder = Ok fileNames ->
        List.map (fun suggestion => fsPath (uri suggestion))
          (findSuggestedParameterFiles templateUri) =
        List.map (fun name => fsPath (Uri_file (path_join folder name)))
          (filter
             (fun name =>
                hasSupportedParamFileExtension (path_join folder name) &&
                match doesFileContainString (path_join folder name)
                        containsParamsSchema
                        readAtMostBytesToFindParamsSchema with
                | Ok found => found
                | Throw _ => false
                end)
             fileNames) /\
        Forall
          (fun suggestion =>
             exists name : string,
               In name fileNames /\
               uri suggestion = Uri_file (path_join folder name) /\
               friendlyPath suggestion =
                 getFriendlyPathToParamFile templateUri (uri suggestion) /\
               isCloseNameMatch suggestion =
                 mayBeMatchingParamFile (fsPath templateUri)
                   (path_join folder name))
          (findSuggestedParameterFiles templateUri)) /\
    (forall error : exn,
        readdir folder = Throw error ->
        findSuggestedParameterFiles templateUri = []).
Proof.
  intros templateUri folder. split.
  - intros fileNames Hdir. unfold findSuggestedParameterFiles.
    fold folder. rewrite Hdir, findSuggested_fold. cbn [app]. split.
    + rewrite map_map. cbn [uri]. f_equal. apply filter_ext.
      intros name. unfold isParameterFile.
      destruct (hasSupportedParamFileExtension (path_join folder name));
        cbn [negb andb]; [| reflexivity].
      destruct (doesFileContainString _ _ _) as [[|] | e]; reflexivity.
    + apply Forall_forall. intros suggestion Hin.
      apply in_map_iff in Hin. destruct Hin as [name [<- Hin]].
      apply filter_In in Hin. destruct Hin as [Hin _].
      exists name. cbn [uri friendlyPath isCloseNameMatch].
      repeat split. exact Hin.
  - intros error Hdir. unfold findSuggestedParameterFiles.
    fold folder. rewrite Hdir. reflexivity.
Qed.

End SuggestedFilesFacts.

Lemma findSuggestedParameterFiles_spec_witness :
  List.map (fun suggestion => fsPath (uri suggestion))
    (findSuggestedParameterFiles (host := sample_host) (fs := sample_fs)
       "/main.json") = ["/main.parameters.json"] /\
  findSuggestedParameterFiles (host := sample_host)
    (fs := {| containsParamsSchema := fun _ => true;
              createReadStream := fun _ => {| chunks := []; failure := None |};
              readdir := fun _ => Throw (Error "ENOENT");
              path_join := fun folder name => folder ++ name |})
    "/main.json" = [].
Proof.
  split.
  - destruct (findSuggestedParameterFiles_spec (host := sample_host)
                (fs := sample_fs) "/main.json") as (Hok & _).
    destruct (Hok ["main.json"; "main.parameters.json"; "locked.json"]
                eq_refl) as (Hpaths & _).
    etransitivity; [exact Hpaths | reflexivity].
  - destruct (findSuggestedParameterFiles_spec (host := sample_host)
                (fs := {| containsParamsSchema := fun _ => true;
                          createReadStream :=
                            fun _ => {| chunks := []; failure := None |};
                          readdir := fun _ => Throw (Error "ENOENT");
                          path_join := fun folder name => folder ++ name |})
                "/main.json") as (_ & Hfail).
    exact (Hfail (Error "ENOENT") eq_refl).
Defined.
